(** * Pikzie core: the test execution engine

    A shallow embedding of [lib/pikzie/core.py] (Python 2): the result
    aggregator [TestResult], the lifecycle driver [TestCase.run], the
    composite runner [TestSuite.run] and the module resolution loop of
    [TestLoader.load_modules].

    Python's control flow (exceptions, [return], [try]/[except]/[finally])
    is rendered by a small completion-and-state monad; the mutable
    [TestResult] object, the clock and the observable calls live in an
    explicit [World]. *)

From Stdlib Require Import List String Ascii ZArith Bool Arith Lia.
From Equations Require Import Equations.
Import ListNotations.

Set Warnings "-register-all".

Open Scope string_scope.
Open Scope list_scope.

(* ===================================================================== *)
(** * Exceptions and tracebacks *)
(* ===================================================================== *)

(** The exception classes the engine tells apart.  A constructor stands
    for the class and its subclasses: this is what an [except C:] clause
    tests.  [OtherException] is any class matched only by a bare
    [except:]. *)
Inductive exn_class : Type :=
| AssertionFailure
| KeyboardInterrupt
| ImportError
| TypeError
| AttributeError
| OtherException (name : string).

(** One level of a raw Python traceback.  [tb_globals_has_TestCase] is the
    test of [_is_relevant_tb_level]: the frame's globals bind [TestCase]
    or one of its bases to the class itself. *)
Record tb_level : Type := mk_tb_level {
  tb_globals_has_TestCase : bool;
  tb_filename : string;
  tb_lineno : nat;
  tb_name : string;
  tb_line : option string
}.

(** class Traceback *)
Record Traceback : Type := mk_Traceback {
  filename : string;
  lineno : nat;
  name : string;
  line : option string
}.

(** What [sys.exc_info()] gives for a raised exception: its type, its
    value (kept as its text) and the raw traceback. *)
Record exn : Type := mk_exn {
  exc_type : exn_class;
  exc_detail : string;
  exc_traceback : list tb_level
}.

Definition is_KeyboardInterrupt (e : exn) : bool :=
  match exc_type e with KeyboardInterrupt => true | _ => false end.

Definition is_AssertionFailure (e : exn) : bool :=
  match exc_type e with AssertionFailure => true | _ => false end.

Definition is_ImportError (e : exn) : bool :=
  match exc_type e with ImportError => true | _ => false end.

(* ===================================================================== *)
(** * Test cases, faults, listeners *)
(* ===================================================================== *)

(** What user code (a fixture or a test method) can do to the engine while
    it runs: pass an assertion ([self._pass_assertion()], called by the
    assertion library), let time pass, or have the run interrupted from
    outside ([result.interrupt()]). *)
Inductive action : Type :=
| PassAssertion
| Interrupt
| Elapse (dt : Z).

(** A piece of user code: the actions it performs, then how it ends:
    [None] when it returns, [Some e] when it raises [e]. *)
Record user_code : Type := mk_user_code {
  actions : list action;
  ending : option exn
}.

(** A [TestCase] instance: its identity, its class and method name, and
    the user code of its [setup], test method and [teardown]. *)
Record TestCase : Type := mk_TestCase {
  oid : nat;
  class_module : string;
  class_name : string;
  method_name : string;
  description_doc : option string;
  setup : user_code;
  test_method : user_code;
  teardown : user_code
}.

(** Modelled from the spec: the module [pikzie.faults] (classes [Failure]
    and [Error]) is not among the sources.  A fault is a tagged variant;
    [Failure] carries the test, the assertion's detail and the filtered
    stack, [Error] carries in addition the exception's kind. *)
Inductive Fault : Type :=
| Failure (test : TestCase) (detail : string) (tracebacks : list Traceback)
| Error (test : TestCase) (exception_type : exn_class) (detail : string)
        (tracebacks : list Traceback).

Definition is_Failure (f : Fault) : bool :=
  match f with Failure _ _ _ => true | Error _ _ _ _ => false end.

Definition is_Error (f : Fault) : bool :=
  match f with Failure _ _ _ => false | Error _ _ _ _ => true end.

(** A listener is any object.  The engine asks which attributes it has
    ([hasattr]) and calls its hooks.  A hook is code of the reporting
    layer, which consumes the events it is given: it returns, or it
    raises, and it does not call back into the aggregator.  [raising]
    lists the hooks that raise, each with its exception; the other hooks
    return. *)
Record listener : Type := mk_listener {
  listener_id : nat;
  attributes : list string;
  raising : list (string * exn)
}.

Definition hasattr (l : listener) (attr : string) : bool :=
  existsb (String.eqb attr) (attributes l).

(** What calling the hook [callback_name] of [l] raises, if anything. *)
Definition hook_raises (l : listener) (callback_name : string) : option exn :=
  match find (fun h => String.eqb (fst h) callback_name) (raising l) with
  | Some h => Some (snd h)
  | None => None
  end.

(** class TestResult.  [elapsed] and the two time stamps are floats in the
    source; they are integers (clock ticks) here.  [_start_at] and
    [_stop_at] do not exist until first assigned. *)
Record TestResult : Type := mk_TestResult {
  n_assertions : nat;
  n_tests : nat;
  faults : list Fault;
  listners : list listener;
  interrupted : bool;
  elapsed : Z;
  _start_at : option Z;
  _stop_at : option Z
}.

(** TestResult.__init__ *)
Definition TestResult_init : TestResult :=
  {| n_assertions := 0; n_tests := 0; faults := []; listners := [];
     interrupted := false; elapsed := 0%Z;
     _start_at := None; _stop_at := None |}.

(* ===================================================================== *)
(** * The observable trace and the world *)
(* ===================================================================== *)

Inductive hook_arg : Type :=
| TestArg (t : TestCase)
| FaultArg (f : Fault).

Inductive method_call : Type :=
| CallStartTest (t : TestCase)
| CallStopTest (t : TestCase)
| CallPassAssertion (t : TestCase)
| CallAddError (t : TestCase) (f : Fault)
| CallAddFailure (t : TestCase) (f : Fault)
| CallAddSuccess (t : TestCase)
| CallInterrupt.

Inductive phase : Type := Setup | Body | Teardown.

(** What an observer of the run sees, in order: a method of the result
    being entered, a listener hook being invoked (with the aggregator as
    it is at that instant, and the further arguments), a user phase of a
    test being entered. *)
Inductive event : Type :=
| Call (m : method_call)
| Hook (l : listener) (callback_name : string) (self : TestResult)
       (args : list hook_arg)
| Phase (t : TestCase) (p : phase).

(** The one [TestResult] of the run, the clock read by [time.time()], the
    test cases whose private [__result] attribute is currently bound to
    the result, those whose [__result] is None (a test case has no such
    attribute before its first run), and the trace so far. *)
Record World : Type := mk_World {
  result : TestResult;
  now : Z;
  bound : list nat;
  cleared : list nat;
  trace : list event
}.

Definition World_init (r : TestResult) : World :=
  {| result := r; now := 0%Z; bound := []; cleared := []; trace := [] |}.

Definition with_result (f : TestResult -> TestResult) (w : World) : World :=
  {| result := f (result w); now := now w; bound := bound w;
     cleared := cleared w; trace := trace w |}.

Definition with_now (f : Z -> Z) (w : World) : World :=
  {| result := result w; now := f (now w); bound := bound w;
     cleared := cleared w; trace := trace w |}.

Definition with_bound (f : list nat -> list nat) (w : World) : World :=
  {| result := result w; now := now w; bound := f (bound w);
     cleared := cleared w; trace := trace w |}.

Definition with_cleared (f : list nat -> list nat) (w : World) : World :=
  {| result := result w; now := now w; bound := bound w;
     cleared := f (cleared w); trace := trace w |}.

Definition with_trace (f : list event -> list event) (w : World) : World :=
  {| result := result w; now := now w; bound := bound w;
     cleared := cleared w; trace := f (trace w) |}.

(* ===================================================================== *)
(** * Control flow: completions and the state monad *)
(* ===================================================================== *)

(** How a block of statements ends: it falls through with a value, it
    executes [return] (always without a value in this code), or it
    raises. *)
Inductive completion (A : Type) : Type :=
| Normal (a : A)
| Returned
| Raised (e : exn).
Arguments Normal {A} a.
Arguments Returned {A}.
Arguments Raised {A} e.

Definition M (S A : Type) : Type := S -> completion A * S.

Definition ret {S A} (a : A) : M S A := fun s => (Normal a, s).

Definition bind {S A B} (m : M S A) (k : A -> M S B) : M S B :=
  fun s =>
    match m s with
    | (Normal a, s') => k a s'
    | (Returned, s') => (Returned, s')
    | (Raised e, s') => (Raised e, s')
    end.

Declare Scope py_scope.
Delimit Scope py_scope with py.
Notation "x <- m ;; k" := (bind m (fun x => k))
  (at level 61, m at next level, right associativity) : py_scope.
Notation "m ;; k" := (bind m (fun _ => k))
  (at level 61, right associativity) : py_scope.
Open Scope py_scope.

Definition raise {S A} (e : exn) : M S A := fun s => (Raised e, s).

(** The [return] statement. *)
Definition return_ {S A} : M S A := fun s => (Returned, s).

Definition get {S} : M S S := fun s => (Normal s, s).

Definition modify {S} (f : S -> S) : M S unit := fun s => (Normal tt, f s).

(** A function call: a [return] inside the body ends the call normally. *)
Definition call {S} (body : M S unit) : M S unit :=
  fun s =>
    match body s with
    | (Returned, s') => (Normal tt, s')
    | r => r
    end.

(** One clause [except C: handler]: the class test and the handler, which
    receives the exception being handled ([sys.exc_info()]). *)
Definition except_clause (S : Type) : Type := ((exn -> bool) * (exn -> M S unit))%type.

Fixpoint select_handler {S} (clauses : list (except_clause S)) (e : exn)
  : option (M S unit) :=
  match clauses with
  | [] => None
  | (matches, handler) :: rest =>
      if matches e then Some (handler e) else select_handler rest e
  end.

(** [try: body / except ...:]: the first clause that matches handles the
    exception; whatever the handler does (fall through, [return], raise)
    is what the statement does.  No clause matching, it propagates. *)
Definition try_except {S} (body : M S unit) (clauses : list (except_clause S))
  : M S unit :=
  fun s =>
    match body s with
    | (Raised e, s') =>
        match select_handler clauses e with
        | Some handler => handler s'
        | None => (Raised e, s')
        end
    | r => r
    end.

(** [try: body / finally: cleanup]: the cleanup always runs; when it falls
    through, the statement ends as the body did (a pending [return] or
    exception resumes); when it returns or raises itself, that wins. *)
Definition try_finally {S A} (body : M S A) (cleanup : M S unit) : M S A :=
  fun s =>
    match body s with
    | (c, s') =>
        match cleanup s' with
        | (Normal _, s'') => (c, s'')
        | (Returned, s'') => (Returned, s'')
        | (Raised e, s'') => (Raised e, s'')
        end
    end.

(** [for x in xs: body x] without [break]. *)
Fixpoint for_each {S A} (xs : list A) (body : A -> M S unit) : M S unit :=
  match xs with
  | [] => ret tt
  | x :: rest => body x ;; for_each rest body
  end.

(** [except:] matches everything. *)
Definition any_exception (e : exn) : bool := true.

(* ===================================================================== *)
(** * class TestResult *)
(* ===================================================================== *)

Definition set_n_assertions (n : nat) (r : TestResult) : TestResult :=
  {| n_assertions := n; n_tests := n_tests r; faults := faults r;
     listners := listners r; interrupted := interrupted r;
     elapsed := elapsed r; _start_at := _start_at r; _stop_at := _stop_at r |}.

Definition set_n_tests (n : nat) (r : TestResult) : TestResult :=
  {| n_assertions := n_assertions r; n_tests := n; faults := faults r;
     listners := listners r; interrupted := interrupted r;
     elapsed := elapsed r; _start_at := _start_at r; _stop_at := _stop_at r |}.

Definition set_faults (fs : list Fault) (r : TestResult) : TestResult :=
  {| n_assertions := n_assertions r; n_tests := n_tests r; faults := fs;
     listners := listners r; interrupted := interrupted r;
     elapsed := elapsed r; _start_at := _start_at r; _stop_at := _stop_at r |}.

Definition set_listners (ls : list listener) (r : TestResult) : TestResult :=
  {| n_assertions := n_assertions r; n_tests := n_tests r; faults := faults r;
     listners := ls; interrupted := interrupted r;
     elapsed := elapsed r; _start_at := _start_at r; _stop_at := _stop_at r |}.

Definition set_interrupted (b : bool) (r : TestResult) : TestResult :=
  {| n_assertions := n_assertions r; n_tests := n_tests r; faults := faults r;
     listners := listners r; interrupted := b;
     elapsed := elapsed r; _start_at := _start_at r; _stop_at := _stop_at r |}.

Definition set_elapsed (z : Z) (r : TestResult) : TestResult :=
  {| n_assertions := n_assertions r; n_tests := n_tests r; faults := faults r;
     listners := listners r; interrupted := interrupted r;
     elapsed := z; _start_at := _start_at r; _stop_at := _stop_at r |}.

Definition set__start_at (z : Z) (r : TestResult) : TestResult :=
  {| n_assertions := n_assertions r; n_tests := n_tests r; faults := faults r;
     listners := listners r; interrupted := interrupted r;
     elapsed := elapsed r; _start_at := Some z; _stop_at := _stop_at r |}.

Definition set__stop_at (z : Z) (r : TestResult) : TestResult :=
  {| n_assertions := n_assertions r; n_tests := n_tests r; faults := faults r;
     listners := listners r; interrupted := interrupted r;
     elapsed := elapsed r; _start_at := _start_at r; _stop_at := Some z |}.

(** Reading and updating [self] from inside a method. *)
Definition self_ : M World TestResult := fun w => (Normal (result w), w).

Definition update_self (f : TestResult -> TestResult) : M World unit :=
  modify (with_result f).

(** The trace records the event; it is not part of the source. *)
Definition observe (e : event) : M World unit :=
  modify (with_trace (fun t => t ++ [e])).

(** time.time() *)
Definition time_time : M World Z := fun w => (Normal (now w), w).

(** Invoking [getattr(listner, callback_name)(self, *args)]: the listener
    sees the aggregator as it is now; the call is not guarded, so what the
    hook raises leaves [_notify] and the method that notifies. *)
Definition invoke_hook (listner : listener) (callback_name : string)
    (args : list hook_arg) : M World unit :=
  self <- self_ ;;
  observe (Hook listner callback_name self args) ;;
  match hook_raises listner callback_name with
  | Some e => raise e
  | None => ret tt
  end.

(** TestResult._notify *)
Definition _notify (name : string) (args : list hook_arg) : M World unit :=
  self <- self_ ;;
  for_each (listners self) (fun listner =>
    let callback_name := ("on_" ++ name)%string in
    if hasattr listner callback_name
    then invoke_hook listner callback_name args
    else ret tt).

(** TestResult.add_listner *)
Definition add_listner (l : listener) : M World unit :=
  update_self (fun r => set_listners (listners r ++ [l]) r).

(** The properties n_faults, n_failures, n_errors. *)
Definition n_faults (r : TestResult) : nat := List.length (faults r).

Definition n_failures (r : TestResult) : nat :=
  List.length (filter is_Failure (faults r)).

Definition n_errors (r : TestResult) : nat :=
  List.length (filter is_Error (faults r)).

(** TestResult.pass_assertion *)
Definition pass_assertion (test : TestCase) : M World unit :=
  observe (Call (CallPassAssertion test)) ;;
  update_self (fun r => set_n_assertions (n_assertions r + 1) r) ;;
  _notify "pass_assertion" [TestArg test].

(** TestResult.start_test *)
Definition start_test (test : TestCase) : M World unit :=
  observe (Call (CallStartTest test)) ;;
  t <- time_time ;;
  update_self (set__start_at t) ;;
  update_self (fun r => set_n_tests (n_tests r + 1) r) ;;
  _notify "start_test" [TestArg test].

(** TestResult.stop_test.  Reading [self._start_at] before any
    [start_test] raises AttributeError. *)
Definition stop_test (test : TestCase) : M World unit :=
  observe (Call (CallStopTest test)) ;;
  t <- time_time ;;
  update_self (set__stop_at t) ;;
  self <- self_ ;;
  match _start_at self with
  | Some t0 => update_self (fun r => set_elapsed (elapsed r + (t - t0))%Z r)
  | None =>
      raise {| exc_type := AttributeError;
               exc_detail := "'TestResult' object has no attribute '_start_at'";
               exc_traceback := [] |}
  end.

(** TestResult.add_error *)
Definition add_error (test : TestCase) (error : Fault) : M World unit :=
  observe (Call (CallAddError test error)) ;;
  update_self (fun r => set_faults (faults r ++ [error]) r) ;;
  _notify "error" [FaultArg error].

(** TestResult.add_failure *)
Definition add_failure (test : TestCase) (failure : Fault) : M World unit :=
  observe (Call (CallAddFailure test failure)) ;;
  update_self (fun r => set_faults (faults r ++ [failure]) r) ;;
  _notify "failure" [FaultArg failure].

(** TestResult.add_success *)
Definition add_success (test : TestCase) : M World unit :=
  observe (Call (CallAddSuccess test)) ;;
  _notify "success" [TestArg test].

(** TestResult.interrupt *)
Definition interrupt : M World unit :=
  observe (Call CallInterrupt) ;;
  update_self (set_interrupted true).

(** TestResult.need_interrupt *)
Definition need_interrupt : M World bool :=
  self <- self_ ;; ret (interrupted self).

(** TestResult.succeeded *)
Definition succeeded (r : TestResult) : bool :=
  Nat.eqb (List.length (faults r)) 0.

(** The expression [result.interrupted()]: [interrupted] is the boolean
    attribute assigned in [__init__] (the class has no method of that
    name), and calling a bool raises TypeError. *)
Definition call_interrupted_attribute : M World unit :=
  self <- self_ ;;
  let attribute := interrupted self in
  raise {| exc_type := TypeError;
           exc_detail := "'bool' object is not callable";
           exc_traceback := [] |}.

(* ===================================================================== *)
(** * class TestCase *)
(* ===================================================================== *)

(** TestCase._is_relevant_tb_level *)
Definition _is_relevant_tb_level (tb : tb_level) : bool :=
  tb_globals_has_TestCase tb.

(** The loop [while tb and self._is_relevant_tb_level(tb): tb = tb.tb_next]
    of [_prepare_traceback]. *)
Fixpoint skip_relevant_tb_levels (tb : list tb_level) : list tb_level :=
  match tb with
  | [] => []
  | level :: next =>
      if _is_relevant_tb_level level then skip_relevant_tb_levels next else tb
  end.

(** TestCase._count_relevant_tb_levels *)
Fixpoint _count_relevant_tb_levels (tb : list tb_level) : nat :=
  match tb with
  | [] => 0
  | level :: next =>
      if negb (_is_relevant_tb_level level)
      then 1 + _count_relevant_tb_levels next
      else 0
  end.

(** traceback.extract_tb(tb, limit) of the standard library. *)
Definition extract_tb (tb : list tb_level) (limit : option nat)
  : list (string * nat * string * option string) :=
  map (fun l => (tb_filename l, tb_lineno l, tb_name l, tb_line l))
      (match limit with None => tb | Some n => firstn n tb end).

(** TestCase._prepare_traceback *)
Definition _prepare_traceback (tb : list tb_level) (compute_length : bool)
  : list Traceback :=
  let tb := skip_relevant_tb_levels tb in
  let length :=
    if compute_length then Some (_count_relevant_tb_levels tb) else None in
  map (fun '(filename, lineno, name, line) =>
         mk_Traceback filename lineno name line)
      (extract_tb tb length).

(** TestCase._add_failure; [exc] is what [sys.exc_info()] returns, the
    exception being handled. *)
Definition _add_failure (self : TestCase) (exc : exn) : M World unit :=
  let tracebacks := _prepare_traceback (exc_traceback exc) true in
  let failure := Failure self (exc_detail exc) tracebacks in
  add_error self failure.

(** TestCase._add_error *)
Definition _add_error (self : TestCase) (exc : exn) : M World unit :=
  let tracebacks := _prepare_traceback (exc_traceback exc) false in
  let error := Error self (exc_type exc) (exc_detail exc) tracebacks in
  add_error self error.

Definition is_bound (self : TestCase) (w : World) : bool :=
  existsb (Nat.eqb (oid self)) (bound w).

Definition is_cleared (self : TestCase) (w : World) : bool :=
  existsb (Nat.eqb (oid self)) (cleared w).

Definition without (self : TestCase) (ids : list nat) : list nat :=
  filter (fun o => negb (Nat.eqb (oid self) o)) ids.

(** [self.__result = result] and [self.__result = None]. *)
Definition bind_result (self : TestCase) : M World unit :=
  modify (fun w => with_cleared (without self)
                     (with_bound (fun b => oid self :: b) w)).

Definition unbind_result (self : TestCase) : M World unit :=
  modify (fun w => with_cleared (fun c => oid self :: c)
                     (with_bound (without self) w)).

(** TestCase._pass_assertion.  Outside of [run] the call raises
    AttributeError: after a run [__result] is None, and before the first
    run the test case has no attribute [_TestCase__result] at all. *)
Definition _pass_assertion (self : TestCase) : M World unit :=
  w <- get ;;
  if is_bound self w
  then pass_assertion self
  else if is_cleared self w
  then raise {| exc_type := AttributeError;
                exc_detail := "'NoneType' object has no attribute 'pass_assertion'";
                exc_traceback := [] |}
  else raise {| exc_type := AttributeError;
                exc_detail := "'" ++ class_name self
                              ++ "' object has no attribute '_TestCase__result'";
                exc_traceback := [] |}.

(** Running user code of a test. *)
Definition perform (self : TestCase) (a : action) : M World unit :=
  match a with
  | PassAssertion => _pass_assertion self
  | Interrupt => interrupt
  | Elapse dt => modify (with_now (fun t => (t + dt)%Z))
  end.

Definition execute (self : TestCase) (p : phase) (code : user_code)
  : M World unit :=
  observe (Phase self p) ;;
  for_each (actions code) (perform self) ;;
  match ending code with
  | None => ret tt
  | Some e => raise e
  end.

(** The frame of a call of [run]: the world and the local [success]. *)
Record Frame : Type := mk_Frame {
  world : World;
  success : bool
}.

Definition in_world {A} (m : M World A) : M Frame A :=
  fun f =>
    match m (world f) with
    | (c, w) => (c, {| world := w; success := success f |})
    end.

Definition assign_success (b : bool) : M Frame unit :=
  modify (fun f => {| world := world f; success := b |}).

Definition read_success : M Frame bool :=
  fun f => (Normal (success f), f).

(** The body of TestCase.run, statement by statement. *)
Definition run_body (self : TestCase) : M Frame unit :=
  try_finally
    (in_world (bind_result self) ;;
     in_world (start_test self) ;;
     assign_success false ;;
     try_finally
       (try_except
          (in_world (execute self Setup (setup self)))
          [ (is_KeyboardInterrupt,
             fun _ => in_world call_interrupted_attribute ;; return_);
            (any_exception,
             fun exc => in_world (_add_error self exc) ;; return_) ] ;;
        try_except
          (in_world (execute self Body (test_method self)) ;;
           assign_success true)
          [ (is_AssertionFailure,
             fun exc => in_world (_add_failure self exc));
            (is_KeyboardInterrupt,
             fun _ => in_world call_interrupted_attribute ;; return_);
            (any_exception,
             fun exc => in_world (_add_error self exc)) ])
       (try_except
          (in_world (execute self Teardown (teardown self)))
          [ (is_KeyboardInterrupt,
             fun _ => in_world call_interrupted_attribute);
            (any_exception,
             fun exc => in_world (_add_error self exc) ;;
                        assign_success false) ]) ;;
     success <- read_success ;;
     if success then in_world (add_success self) else ret tt)
    (in_world (stop_test self) ;;
     in_world (unbind_result self)).

(** TestCase.run: the call creates the frame and drops it at the end. *)
Definition run (self : TestCase) : M World unit :=
  fun w =>
    match call (run_body self) {| world := w; success := false |} with
    | (c, f) => (c, world f)
    end.

(** TestCase.__len__ *)
Definition TestCase_len (self : TestCase) : nat := 1.

(** TestCase.__str__ and TestCase.id *)
Definition TestCase_str (self : TestCase) : string :=
  (class_name self ++ "." ++ method_name self)%string.

Definition TestCase_id (self : TestCase) : string :=
  (class_module self ++ "." ++ class_name self ++ "." ++ method_name self)%string.

(* ===================================================================== *)
(** * class TestSuite *)
(* ===================================================================== *)

(** A test is a case or a suite of tests, in insertion order. *)
Inductive Test : Type :=
| Case (tc : TestCase)
| Suite (_tests : list Test).

(** TestSuite.run, with [test.run(result)] dispatched on the kind of test:
    the [for] loop runs a child, then reads [result.need_interrupt()] and
    breaks when it is set. *)
Fixpoint Test_run (t : Test) : M World unit :=
  match t with
  | Case tc => run tc
  | Suite tests =>
      (fix loop (ts : list Test) : M World unit :=
         match ts with
         | [] => ret tt
         | test :: rest =>
             Test_run test ;;
             stop <- need_interrupt ;;
             if stop then ret tt else loop rest
         end) tests
  end.

Definition TestSuite_run (tests : list Test) : M World unit :=
  Test_run (Suite tests).

(** TestSuite.__len__ *)
Fixpoint Test_len (t : Test) : nat :=
  match t with
  | Case tc => TestCase_len tc
  | Suite tests => fold_right (fun t n => Test_len t + n) 0 tests
  end.

(** Induction on tests, with the hypothesis for every child of a suite. *)
Section Test_induction.

Variable P : Test -> Prop.
Hypothesis P_Case : forall tc, P (Case tc).
Hypothesis P_Suite : forall tests, Forall P tests -> P (Suite tests).

Fixpoint Test_induction (t : Test) : P t :=
  match t with
  | Case tc => P_Case tc
  | Suite tests =>
      P_Suite tests
        ((fix children (ts : list Test) : Forall P ts :=
            match ts with
            | [] => Forall_nil P
            | t' :: ts' => Forall_cons t' (Test_induction t') (children ts')
            end) tests)
  end.

End Test_induction.

(* ===================================================================== *)
(** * class TestLoader *)
(* ===================================================================== *)

Module Loader.

(** ** String functions of the Python library used by the loader *)

(** [sep.join(parts)] *)
Definition join (sep : string) (parts : list string) : string :=
  String.concat sep parts.

(** [s.split(sep)] for a one-character separator: always at least one
    part. *)
Fixpoint split (sep : ascii) (s : string) : list string :=
  match s with
  | EmptyString => [EmptyString]
  | String c rest =>
      if Ascii.eqb c sep
      then EmptyString :: split sep rest
      else match split sep rest with
           | [] => [String c EmptyString]
           | part :: parts => String c part :: parts
           end
  end.

(** [re.sub(re.escape(old), new, s)] for one-character [old] and [new]. *)
Fixpoint replace_char (old new : ascii) (s : string) : string :=
  match s with
  | EmptyString => EmptyString
  | String c rest =>
      String (if Ascii.eqb c old then new else c) (replace_char old new rest)
  end.

(** [s.rfind(c)]: the highest index of [c] in [s], or -1. *)
Fixpoint rfind_from (c : ascii) (s : string) (i : Z) (found : Z) : Z :=
  match s with
  | EmptyString => found
  | String d rest =>
      rfind_from c rest (i + 1) (if Ascii.eqb d c then i else found)
  end.

Definition rfind (c : ascii) (s : string) : Z := rfind_from c s 0 (-1).

(** os.path.sep and os.extsep on POSIX. *)
Definition os_path_sep : ascii := "/"%char.
Definition extsep : ascii := "."%char.

(** The loop of [genericpath._splitext] that skips the leading dots of the
    file name: is there a character other than the dot in
    [p[filenameIndex:dotIndex]]? *)
Fixpoint other_than_dot_before (p : string) (filenameIndex : nat)
    (steps : nat) : bool :=
  match steps with
  | O => false
  | S steps' =>
      match String.get filenameIndex p with
      | Some c =>
          if Ascii.eqb c extsep
          then other_than_dot_before p (S filenameIndex) steps'
          else true
      | None => false
      end
  end.

(** [os.path.splitext(p)[0]] (posixpath). *)
Definition splitext_root (p : string) : string :=
  let sepIndex := rfind os_path_sep p in
  let dotIndex := rfind extsep p in
  if (sepIndex <? dotIndex)%Z
  then
    if other_than_dot_before p (Z.to_nat (sepIndex + 1))
                             (Z.to_nat (dotIndex - (sepIndex + 1)))
    then String.substring 0 (Z.to_nat dotIndex) p
    else p
  else p.

(** ** The environment of discovery *)

(** A module object, as found in [sys.modules] under its name. *)
Record pymodule : Type := mk_pymodule {
  module_name : string
}.

(** The file system and the import system, as the loader consults them:
    what [glob.glob] lists, what [os.path.isfile] answers, and what
    [__import__(name)] does: [None] when it succeeds, [Some e] when it
    raises [e]. *)
Record Env : Type := mk_Env {
  glob_glob : string -> list string;
  os_path_isfile : string -> bool;
  import_ : string -> option exn
}.

Record TestLoader : Type := mk_TestLoader {
  pattern : string;
  test_name : option string;
  test_case_name : option string
}.

(** TestLoader.__init__ *)
Definition TestLoader_init (pattern : option string)
    (test_name test_case_name : option string) : TestLoader :=
  {| pattern := match pattern with None => "**/test_*.py" | Some p => p end;
     test_name := test_name;
     test_case_name := test_case_name |}.

(** TestLoader.find_targets *)
Definition find_targets (env : Env) (self : TestLoader) : list string :=
  filter (os_path_isfile env) (glob_glob env (pattern self)).

(** [parts.pop()]: removes the last item. *)
Definition pop (parts : list string) : list string := removelast parts.

(** The [while] loop of [load_modules]:
    [while len(parts) > 0 and module is None: try ... except ImportError:
    pass; parts.pop()].  The result is the final [module], or the
    exception that was not an ImportError. *)
Equations resolve_loop (env : Env) (parts : list string)
    (module : option pymodule) : exn + option pymodule
    by wf (List.length parts) lt :=
  resolve_loop env [] module := inr module;
  resolve_loop env (p :: ps) (Some m) := inr (Some m);
  resolve_loop env (p :: ps) None
    with import_ env (join "." (p :: ps)) := {
    | None :=
        resolve_loop env (pop (p :: ps))
                     (Some (mk_pymodule (join "." (p :: ps))));
    | Some e with is_ImportError e := {
      | true := resolve_loop env (pop (p :: ps)) None;
      | false := inl e } }.
Next Obligation.
  unfold pop. clear. revert p.
  induction ps as [|q qs IH]; intro p; [simpl; lia|].
  change (removelast (p :: q :: qs)) with (p :: removelast (q :: qs)).
  specialize (IH q). simpl in *. lia.
Qed.
Next Obligation.
  unfold pop. clear. revert p.
  induction ps as [|q qs IH]; intro p; [simpl; lia|].
  change (removelast (p :: q :: qs)) with (p :: removelast (q :: qs)).
  specialize (IH q). simpl in *. lia.
Qed.

(** The dotted candidate name of a target path and its parts. *)
Definition dotted_name (target : string) : string :=
  replace_char os_path_sep "."%char (splitext_root target).

Definition parts_of (target : string) : list string :=
  split "."%char (dotted_name target).

(** The [for] loop of [load_modules] over the targets. *)
Fixpoint load_targets (env : Env) (targets : list string)
    (modules : list pymodule) : exn + list pymodule :=
  match targets with
  | [] => inr modules
  | target :: rest =>
      match resolve_loop env (parts_of target) None with
      | inl e => inl e
      | inr (Some module) => load_targets env rest (modules ++ [module])
      | inr None => load_targets env rest modules
      end
  end.

(** TestLoader.load_modules *)
Definition load_modules (env : Env) (self : TestLoader)
  : exn + list pymodule :=
  load_targets env (find_targets env self) [].

(** ** Vocabulary for the properties of the loader *)

(** The candidate made of the first [k] parts, and of the parts after the
    first [k]. *)
Definition prefix_name (parts : list string) (k : nat) : string :=
  join "." (firstn k parts).





Definition ImportError_raised : exn :=
  {| exc_type := ImportError; exc_detail := "No module named test_sample";
     exc_traceback := [] |}.


End Loader.

(* ===================================================================== *)
(** * Vocabulary of the properties *)
(* ===================================================================== *)

(** ** Closed forms of the result's methods *)

(** The listeners whose hook [callback_name] one [_notify] invokes: those
    that have it, in registration order, up to and including the first
    whose hook raises; and what that hook raises, if any does. *)
Fixpoint notified_listeners (callback_name : string) (ls : list listener)
  : list listener :=
  match ls with
  | [] => []
  | l :: rest =>
      if hasattr l callback_name
      then l :: match hook_raises l callback_name with
                | Some _ => []
                | None => notified_listeners callback_name rest
                end
      else notified_listeners callback_name rest
  end.

Fixpoint notify_raises (callback_name : string) (ls : list listener)
  : option exn :=
  match ls with
  | [] => None
  | l :: rest =>
      if hasattr l callback_name
      then match hook_raises l callback_name with
           | Some e => Some e
           | None => notify_raises callback_name rest
           end
      else notify_raises callback_name rest
  end.

Definition completion_of (raised : option exn) : completion unit :=
  match raised with
  | None => Normal tt
  | Some e => Raised e
  end.

(** The hook invocations one [_notify] produces on aggregator [r]. *)
Definition hook_events (name : string) (args : list hook_arg) (r : TestResult)
  : list event :=
  map (fun l => Hook l ("on_" ++ name)%string r args)
      (notified_listeners ("on_" ++ name)%string (listners r)).

Definition notified (name : string) (args : list hook_arg) (w : World) : World :=
  with_trace (fun t => t ++ hook_events name args (result w)) w.

Definition observed (e : event) (w : World) : World :=
  with_trace (fun t => t ++ [e]) w.

(** The world after each method, written out. *)
Definition passed_assertion (test : TestCase) (w : World) : World :=
  notified "pass_assertion" [TestArg test]
    (with_result (fun r => set_n_assertions (n_assertions r + 1) r)
       (observed (Call (CallPassAssertion test)) w)).

Definition started (test : TestCase) (w : World) : World :=
  notified "start_test" [TestArg test]
    (with_result (fun r => set_n_tests (n_tests r + 1) (set__start_at (now w) r))
       (observed (Call (CallStartTest test)) w)).

Definition error_added (test : TestCase) (error : Fault) (w : World) : World :=
  notified "error" [FaultArg error]
    (with_result (fun r => set_faults (faults r ++ [error]) r)
       (observed (Call (CallAddError test error)) w)).

Definition failure_added (test : TestCase) (failure : Fault) (w : World)
  : World :=
  notified "failure" [FaultArg failure]
    (with_result (fun r => set_faults (faults r ++ [failure]) r)
       (observed (Call (CallAddFailure test failure)) w)).

Definition success_added (test : TestCase) (w : World) : World :=
  notified "success" [TestArg test] (observed (Call (CallAddSuccess test)) w).

Definition stopped (test : TestCase) (t0 : Z) (w : World) : World :=
  with_result
    (fun r => set_elapsed (elapsed r + (now w - t0))%Z (set__stop_at (now w) r))
    (observed (Call (CallStopTest test)) w).

Definition interrupt_requested (w : World) : World :=
  with_result (set_interrupted true) (observed (Call CallInterrupt) w).

(** The world after one action of a test whose [__result] is bound, and
    what the action raises with listeners [ls]: passing an assertion
    raises what an [on_pass_assertion] hook raises. *)
Definition performed (self : TestCase) (w : World) (a : action) : World :=
  match a with
  | PassAssertion => passed_assertion self w
  | Interrupt => interrupt_requested w
  | Elapse dt => with_now (fun t => (t + dt)%Z) w
  end.

Definition perform_raises (ls : list listener) (a : action) : option exn :=
  match a with
  | PassAssertion => notify_raises "on_pass_assertion" ls
  | _ => None
  end.

(** The actions of a list that are performed: up to and including the
    first that raises; and what that one raises. *)
Fixpoint performed_actions (ls : list listener) (acts : list action)
  : list action :=
  match acts with
  | [] => []
  | a :: rest =>
      a :: match perform_raises ls a with
           | Some _ => []
           | None => performed_actions ls rest
           end
  end.

Fixpoint actions_raise (ls : list listener) (acts : list action)
  : option exn :=
  match acts with
  | [] => None
  | a :: rest =>
      match perform_raises ls a with
      | Some e => Some e
      | None => actions_raise ls rest
      end
  end.

(** What a phase raises when run with listeners [ls]: what a hook raised
    under one of its assertions, or else what the code itself raises. *)
Definition phase_raises (ls : list listener) (code : user_code) : option exn :=
  match actions_raise ls (actions code) with
  | Some e => Some e
  | None => ending code
  end.

(** The world after a phase. *)
Definition executed (self : TestCase) (p : phase) (code : user_code)
    (w : World) : World :=
  fold_left (performed self)
            (performed_actions (listners (result w)) (actions code))
            (observed (Phase self p) w).

(** ** Observations on traces *)

(** Test cases are objects: two are the same when they have the same
    identity. *)
Definition same_test (a b : TestCase) : bool := Nat.eqb (oid a) (oid b).

Definition phase_eqb (p q : phase) : bool :=
  match p, q with
  | Setup, Setup | Body, Body | Teardown, Teardown => true
  | _, _ => false
  end.

Definition is_phase_of (self : TestCase) (p : phase) (e : event) : bool :=
  match e with
  | Phase t q => same_test t self && phase_eqb q p
  | _ => false
  end.

Definition is_add_success_of (self : TestCase) (e : event) : bool :=
  match e with
  | Call (CallAddSuccess t) => same_test t self
  | _ => false
  end.

Definition is_start_test_of (self : TestCase) (e : event) : bool :=
  match e with
  | Call (CallStartTest t) => same_test t self
  | _ => false
  end.

Definition is_stop_test_of (self : TestCase) (e : event) : bool :=
  match e with
  | Call (CallStopTest t) => same_test t self
  | _ => false
  end.

Definition is_hook_event (e : event) : bool :=
  match e with
  | Hook _ _ _ _ => true
  | _ => false
  end.

Definition is_hook (callback_name : string) (e : event) : bool :=
  match e with
  | Hook _ cb _ _ => String.eqb cb callback_name
  | _ => false
  end.

Definition count (p : event -> bool) (t : list event) : nat :=
  List.length (filter p t).

Definition hooks_of (t : list event) : list event := filter is_hook_event t.

(** What happened, and which faults were appended, between two worlds. *)
Definition events_since (w w' : World) : list event :=
  skipn (List.length (trace w)) (trace w').

Definition faults_since (w w' : World) : list Fault :=
  skipn (List.length (faults (result w))) (faults (result w')).

(** The events of user actions: what [performed] appends to the trace. *)
Definition events_of_action (self : TestCase) (a : action) (w : World)
  : list event :=
  match a with
  | PassAssertion =>
      Call (CallPassAssertion self)
      :: hook_events "pass_assertion" [TestArg self]
           (set_n_assertions (n_assertions (result w) + 1) (result w))
  | Interrupt => [Call CallInterrupt]
  | Elapse _ => []
  end.

Fixpoint action_events (self : TestCase) (acts : list action) (w : World)
  : list event :=
  match acts with
  | [] => []
  | a :: rest =>
      events_of_action self a w ++ action_events self rest (performed self w a)
  end.

(** The events user actions can produce, and the predicates that never
    hold of them, or of hook invocations. *)
Definition quiet (e : event) : bool :=
  match e with
  | Call (CallPassAssertion _) => true
  | Call CallInterrupt => true
  | Hook _ cb _ _ => String.eqb cb "on_pass_assertion"
  | _ => false
  end.

Definition quiet_free (p : event -> bool) : Prop :=
  forall e, quiet e = true -> p e = false.

Definition hook_free (p : event -> bool) : Prop :=
  forall l cb r args, p (Hook l cb r args) = false.

(** ** How the phases of a test end, and the records they should leave *)

Definition completes (code : user_code) : bool :=
  match ending code with None => true | Some _ => false end.

Definition raises_KeyboardInterrupt (code : user_code) : bool :=
  match ending code with
  | Some e => is_KeyboardInterrupt e
  | None => false
  end.

(** A phase of the run raises the cancellation signal: [setup] does, or
    the test method (which runs only after a completed [setup]) does, or
    [teardown] does. *)
Definition cancelled (self : TestCase) : bool :=
  raises_KeyboardInterrupt (setup self)
  || (completes (setup self) && raises_KeyboardInterrupt (test_method self))
  || raises_KeyboardInterrupt (teardown self).

Definition all_complete (self : TestCase) : bool :=
  completes (setup self) && completes (test_method self)
  && completes (teardown self).

(** The records [_add_error] and [_add_failure] build for an exception. *)
Definition Error_for (self : TestCase) (exc : exn) : Fault :=
  Error self (exc_type exc) (exc_detail exc)
        (_prepare_traceback (exc_traceback exc) false).

Definition Failure_for (self : TestCase) (exc : exn) : Fault :=
  Failure self (exc_detail exc) (_prepare_traceback (exc_traceback exc) true).

(** One record per phase that ran and raised something other than the
    cancellation signal: for [setup] an Error (and then the test method
    does not run), for the test method a Failure when it is an assertion
    failure and an Error otherwise, and for [teardown] an Error. *)
Definition guarded_fault_records (self : TestCase) : list Fault :=
  match ending (setup self) with
  | Some e => if is_KeyboardInterrupt e then [] else [Error_for self e]
  | None =>
      match ending (test_method self) with
      | Some e =>
          if is_AssertionFailure e then [Failure_for self e]
          else if is_KeyboardInterrupt e then []
          else [Error_for self e]
      | None => []
      end
  end.

Definition teardown_fault_records (self : TestCase) : list Fault :=
  match ending (teardown self) with
  | Some e => if is_KeyboardInterrupt e then [] else [Error_for self e]
  | None => []
  end.

Definition fault_records (self : TestCase) : list Fault :=
  guarded_fault_records self ++ teardown_fault_records self.

(** ** Runs with listeners whose hooks may raise *)

(** No hook of a registered listener raises. *)
Definition hooks_return (r : TestResult) : Prop :=
  forall l callback_name, In l (listners r) -> hook_raises l callback_name = None.

(** A piece of user code as it unfolds with listeners [ls]: the actions
    performed, and what the phase raises.  It is the code itself when no
    hook raises. *)
Definition effective (ls : list listener) (code : user_code) : user_code :=
  {| actions := performed_actions ls (actions code);
     ending := phase_raises ls code |}.

Definition effective_test (ls : list listener) (self : TestCase) : TestCase :=
  {| oid := oid self; class_module := class_module self;
     class_name := class_name self; method_name := method_name self;
     description_doc := description_doc self;
     setup := effective ls (setup self);
     test_method := effective ls (test_method self);
     teardown := effective ls (teardown self) |}.

(** [result.start_test(self)] returns: the phases of the run are entered. *)
Definition entered (ls : list listener) : bool :=
  match notify_raises "on_start_test" ls with
  | None => true
  | Some _ => false
  end.

(** The records of a run with listeners [ls]: none when [start_test]
    raises; otherwise one per phase that raised something other than the
    cancellation signal, as in [fault_records], the phases taken as they
    unfold with [ls]. *)
Definition fault_records_in (ls : list listener) (self : TestCase)
  : list Fault :=
  if entered ls
  then
    (match phase_raises ls (setup self) with
     | Some e => if is_KeyboardInterrupt e then [] else [Error_for self e]
     | None =>
         match phase_raises ls (test_method self) with
         | Some e =>
             if is_AssertionFailure e then [Failure_for self e]
             else if is_KeyboardInterrupt e then []
             else [Error_for self e]
         | None => []
         end
     end)
    ++ (match phase_raises ls (teardown self) with
        | Some e => if is_KeyboardInterrupt e then [] else [Error_for self e]
        | None => []
        end)
  else [].

(** ** Sentences of the specification, as they are written *)

(** Teardown is invoked exactly once in a run. *)
Definition teardown_invoked_once (self : TestCase) (w : World) : Prop :=
  count (is_phase_of self Teardown) (events_since w (snd (run self w))) = 1.

(** Exactly one of "add_success is called", "exactly one Failure is
    appended", "exactly one Error is appended" holds of a run. *)
Definition exactly_one_of (A B C : Prop) : Prop :=
  (A /\ ~ B /\ ~ C) \/ (~ A /\ B /\ ~ C) \/ (~ A /\ ~ B /\ C).

Definition exactly_one_outcome (self : TestCase) (w : World) : Prop :=
  let w' := snd (run self w) in
  let new_faults := faults_since w w' in
  exactly_one_of
    (1 <= count (is_add_success_of self) (events_since w w'))
    (List.length (filter is_Failure new_faults) = 1)
    (List.length (filter is_Error new_faults) = 1).

(** [add_error] and [add_failure] leave the same result and make the same
    hook invocations. *)
Definition same_effect (test : TestCase) (fault : Fault) (w : World) : Prop :=
  let we := snd (add_error test fault w) in
  let wf := snd (add_failure test fault w) in
  result we = result wf /\
  hooks_of (events_since w we) = hooks_of (events_since w wf).

(** ** Sample tests, listeners and worlds *)

Definition passing_code : user_code :=
  {| actions := [PassAssertion]; ending := None |}.

Definition failing_code (e : exn) : user_code :=
  {| actions := []; ending := Some e |}.

Definition ZeroDivisionError_raised : exn :=
  {| exc_type := OtherException "ZeroDivisionError";
     exc_detail := "integer division or modulo by zero";
     exc_traceback :=
       [ mk_tb_level true "pikzie/core.py" 153 "run" None;
         mk_tb_level false "test_sample.py" 12 "test_it" (Some "1 / 0") ] |}.

Definition IOError_raised : exn :=
  {| exc_type := OtherException "IOError";
     exc_detail := "No such file or directory";
     exc_traceback :=
       [ mk_tb_level true "pikzie/core.py" 164 "run" None;
         mk_tb_level false "test_sample.py" 15 "teardown" None ] |}.

Definition KeyboardInterrupt_raised : exn :=
  {| exc_type := KeyboardInterrupt; exc_detail := "";
     exc_traceback :=
       [ mk_tb_level true "pikzie/core.py" 153 "run" None;
         mk_tb_level false "test_sample.py" 7 "test_it" None ] |}.

Definition test_with (id_ : nat) (s b t : user_code) : TestCase :=
  {| oid := id_; class_module := "test_sample"; class_name := "TestSample";
     method_name := "test_it"; description_doc := None;
     setup := s; test_method := b; teardown := t |}.

(** Two tests that pass. *)
Definition first_test : TestCase :=
  test_with 1 passing_code passing_code passing_code.

Definition second_test : TestCase :=
  test_with 2 passing_code passing_code passing_code.

(** A test whose method raises the cancellation signal. *)
Definition cancelled_test : TestCase :=
  test_with 1 passing_code (failing_code KeyboardInterrupt_raised)
            passing_code.

(** A test whose method passes and whose [teardown] raises. *)
Definition teardown_failing_test : TestCase :=
  test_with 1 passing_code passing_code
            (failing_code IOError_raised).

(** A test whose method and [teardown] both raise. *)
Definition twice_failing_test : TestCase :=
  test_with 1 passing_code (failing_code ZeroDivisionError_raised)
            (failing_code IOError_raised).

(** A fresh result; one whose flag is already set; one with a listener
    that implements every hook, before and after [start_test]; one with a
    listener that implements [on_error] only. *)
Definition fresh_world : World := World_init TestResult_init.

Definition interrupted_world : World :=
  World_init (set_interrupted true TestResult_init).

Definition full_listener : listener :=
  {| listener_id := 0;
     attributes := [ "on_start_test"; "on_stop_test"; "on_pass_assertion";
                     "on_success"; "on_failure"; "on_error" ];
     raising := [] |}.

Definition listening_world : World :=
  snd (add_listner full_listener fresh_world).

Definition started_world : World :=
  snd (start_test first_test listening_world).

Definition error_listener : listener :=
  {| listener_id := 0; attributes := ["on_error"]; raising := [] |}.

(** A listener whose [on_start_test] raises, and one whose [on_error]
    raises, each registered on a fresh result. *)
Definition RuntimeError_raised : exn :=
  {| exc_type := OtherException "RuntimeError";
     exc_detail := "cannot write the report";
     exc_traceback :=
       [ mk_tb_level false "report.py" 21 "write" None ] |}.

Definition failing_start_listener : listener :=
  {| listener_id := 1; attributes := ["on_start_test"; "on_error"];
     raising := [("on_start_test", RuntimeError_raised)] |}.

Definition failing_start_world : World :=
  snd (add_listner failing_start_listener fresh_world).

Definition failing_error_listener : listener :=
  {| listener_id := 2; attributes := ["on_start_test"; "on_error"];
     raising := [("on_error", RuntimeError_raised)] |}.

Definition failing_error_world : World :=
  snd (add_listner failing_error_listener fresh_world).

Definition error_listening_world : World :=
  snd (add_listner error_listener fresh_world).

Definition sample_fault : Fault :=
  Failure_for first_test
    {| exc_type := AssertionFailure; exc_detail := "expected 1, got 2";
       exc_traceback := [] |}.

(* ===================================================================== *)
(** * Further vocabulary: runs, suites, tracebacks, descriptions, discovery *)
(* ===================================================================== *)

(** The phases of [self] entered in a trace, in order. *)
Definition phase_of (self : TestCase) (e : event) : option phase :=
  match e with
  | Phase t p => if same_test t self then Some p else None
  | _ => None
  end.

Fixpoint phases_of (self : TestCase) (t : list event) : list phase :=
  match t with
  | [] => []
  | e :: rest =>
      match phase_of self e with
      | Some p => p :: phases_of self rest
      | None => phases_of self rest
      end
  end.

Definition is_add_failure_call (e : event) : bool :=
  match e with
  | Call (CallAddFailure _ _) => true
  | _ => false
  end.

Definition is_add_error_of (self : TestCase) (e : event) : bool :=
  match e with
  | Call (CallAddError t _) => same_test t self
  | _ => false
  end.

Definition is_PassAssertion (a : action) : bool :=
  match a with PassAssertion => true | _ => false end.

Definition is_Interrupt (a : action) : bool :=
  match a with Interrupt => true | _ => false end.

(** The assertions passed, and whether an interrupt is requested, by the
    phases of a run that are entered: [setup], the test method when
    [setup] completes, and [teardown]. *)
Definition assertions_passed (code : user_code) : nat :=
  List.length (filter is_PassAssertion (actions code)).

Definition run_assertions_passed (self : TestCase) : nat :=
  assertions_passed (setup self)
  + (if completes (setup self) then assertions_passed (test_method self)
     else 0)
  + assertions_passed (teardown self).

Definition requests_interrupt (code : user_code) : bool :=
  existsb is_Interrupt (actions code).

Definition run_requests_interrupt (self : TestCase) : bool :=
  requests_interrupt (setup self)
  || (completes (setup self) && requests_interrupt (test_method self))
  || requests_interrupt (teardown self).

(** The exception of the expression [result.interrupted()]. *)
Definition bool_not_callable : exn :=
  {| exc_type := TypeError;
     exc_detail := "'bool' object is not callable";
     exc_traceback := [] |}.

(** The exception of [_pass_assertion] after a run, when [self.__result]
    is [None]. *)
Definition no_bound_result : exn :=
  {| exc_type := AttributeError;
     exc_detail := "'NoneType' object has no attribute 'pass_assertion'";
     exc_traceback := [] |}.


Definition is_interrupt_call (e : event) : bool :=
  match e with
  | Call CallInterrupt => true
  | _ => false
  end.

Definition interrupts_requested (code : user_code) : nat :=
  List.length (filter is_Interrupt (actions code)).

Definition run_interrupts_requested (self : TestCase) : nat :=
  interrupts_requested (setup self)
  + (if completes (setup self) then interrupts_requested (test_method self)
     else 0)
  + interrupts_requested (teardown self).

Definition raises_AssertionFailure (code : user_code) : bool :=
  match ending code with
  | Some e => is_AssertionFailure e
  | None => false
  end.

(** ** Suites *)

(** The test cases of a test, in the order a run without interruption
    reaches them. *)
Fixpoint leaves (t : Test) : list TestCase :=
  match t with
  | Case tc => [tc]
  | Suite tests => flat_map leaves tests
  end.

(** TestSuite.add_test, TestSuite.add_tests, TestSuite.__init__ and
    TestSuite.__iter__, on the list [_tests] of a suite. *)
Definition TestSuite_add_test (_tests : list Test) (test : Test) : list Test :=
  _tests ++ [test].

Definition TestSuite_add_tests (_tests : list Test) (tests : list Test)
  : list Test :=
  fold_left TestSuite_add_test tests _tests.

Definition TestSuite_init (tests : list Test) : list Test :=
  TestSuite_add_tests [] tests.

Definition TestSuite_iter (_tests : list Test) : list Test := _tests.

(** A test case that neither raises the cancellation signal nor asks for
    an interrupt. *)
Definition undisturbed (tc : TestCase) : Prop :=
  cancelled tc = false /\ run_requests_interrupt tc = false.

(** A suite of three passing tests, one of them in a nested suite. *)
Definition third_test : TestCase :=
  test_with 3 passing_code passing_code passing_code.

Definition nested_suite : Test :=
  Suite [Case first_test; Suite [Case second_test]; Case third_test].

(** A test whose [setup] has the run interrupted from outside. *)
Definition interrupting_code : user_code :=
  {| actions := [PassAssertion; Interrupt]; ending := None |}.

Definition interrupting_test : TestCase :=
  test_with 1 interrupting_code passing_code passing_code.

(** ** Tracebacks *)

(** The [Traceback] made of one level of a raw traceback. *)
Definition Traceback_of (level : tb_level) : Traceback :=
  mk_Traceback (tb_filename level) (tb_lineno level) (tb_name level)
               (tb_line level).

Definition in_framework (level : tb_level) : Prop :=
  _is_relevant_tb_level level = true.

Definition in_caller_code (level : tb_level) : Prop :=
  _is_relevant_tb_level level = false.

(** A list of levels is empty or starts in the framework (in caller
    code). *)
Definition starts_in_framework (tb : list tb_level) : Prop :=
  match tb with
  | [] => True
  | level :: _ => in_framework level
  end.

Definition starts_in_caller_code (tb : list tb_level) : Prop :=
  match tb with
  | [] => True
  | level :: _ => in_caller_code level
  end.

(** ** TestCase.description *)

(** The characters [str.strip()] removes: space, tab, newline, carriage
    return, vertical tab and form feed. *)
Definition is_whitespace (c : ascii) : bool :=
  match c with
  | " "%char | "009"%char | "010"%char | "011"%char | "012"%char
  | "013"%char => true
  | _ => false
  end.

(** [s.lstrip()], [s.rstrip()] and [s.strip()] *)
Fixpoint lstrip (s : string) : string :=
  match s with
  | EmptyString => EmptyString
  | String c rest => if is_whitespace c then lstrip rest else s
  end.

Fixpoint rstrip (s : string) : string :=
  match s with
  | EmptyString => EmptyString
  | String c rest =>
      match rstrip rest with
      | EmptyString => if is_whitespace c then EmptyString
                       else String c EmptyString
      | kept => String c kept
      end
  end.

Definition strip (s : string) : string := rstrip (lstrip s).

Definition newline : ascii := "010"%char.

(** TestCase.description: the first line of the test method's docstring,
    stripped, or None when there is no docstring or an empty one. *)
Definition description (self : TestCase) : option string :=
  match description_doc self with
  | Some doc =>
      match doc with
      | EmptyString => None
      | _ => Some (strip (hd EmptyString (Loader.split newline doc)))
      end
  | None => None
  end.

(** Every character of a string satisfies [p]. *)
Fixpoint string_forall (p : ascii -> bool) (s : string) : bool :=
  match s with
  | EmptyString => true
  | String c rest => p c && string_forall p rest
  end.

(** ** Listeners *)

(** The invocations of hook [callback_name] with [args] on the listeners
    of [self] that have it, in registration order, up to and including
    the first whose hook raises, each seeing [self]. *)
Definition invocations (callback_name : string) (self : TestResult)
    (args : list hook_arg) : list event :=
  map (fun l => Hook l callback_name self args)
      (notified_listeners callback_name (listners self)).

(** ** Discovery *)

Module Discovery.
Import Loader.

(** The loader tries the name of the first [k] parts: [k] parts are
    left when every longer name has been tried and has failed to import. *)
Definition tried (env : Env) (parts : list string) (k : nat) : Prop :=
  1 <= k <= List.length parts /\
  forall j, k < j <= List.length parts ->
            import_ env (prefix_name parts j) <> None.

(** Every import tried for a target that fails, fails with ImportError. *)
Definition only_ImportError (env : Env) (targets : list string) : Prop :=
  forall target k e,
    In target targets ->
    tried env (parts_of target) k ->
    import_ env (prefix_name (parts_of target) k) = Some e ->
    is_ImportError e = true.

(** A module that was imported under the name of a non-empty prefix of
    the dotted name of one of the targets. *)
Definition loaded_for (env : Env) (targets : list string) (m : pymodule)
  : Prop :=
  import_ env (module_name m) = None /\
  exists target k,
    In target targets /\ 1 <= k <= List.length (parts_of target) /\
    m = mk_pymodule (prefix_name (parts_of target) k).

Definition ValueError_raised : exn :=
  {| exc_type := OtherException "ValueError";
     exc_detail := "Empty module name"; exc_traceback := [] |}.

(** Two test files and a directory match the pattern; the second file
    cannot be imported under any name. *)
Definition two_files_env : Env :=
  {| glob_glob := fun _ => ["test_a.py"; "test_dir"; "lib/test_b.py"];
     os_path_isfile := fun p => negb (String.eqb p "test_dir");
     import_ := fun name =>
       if String.eqb name "test_a" then None
       else if String.eqb name "" then Some ValueError_raised
       else Some ImportError_raised |}.

(** The only target raises SyntaxError when imported. *)
Definition SyntaxError_raised : exn :=
  {| exc_type := OtherException "SyntaxError";
     exc_detail := "invalid syntax"; exc_traceback := [] |}.

Definition broken_file_env : Env :=
  {| glob_glob := fun _ => ["test_broken.py"; "test_a.py"];
     os_path_isfile := fun _ => true;
     import_ := fun name =>
       if String.eqb name "test_broken" then Some SyntaxError_raised
       else None |}.

End Discovery.

(** ** Rendering the flags of a regular expression *)

(** The flag bits of Python's [re] module. *)
Module re.
Definition IGNORECASE : Z := 2.
Definition LOCALE : Z := 4.
Definition MULTILINE : Z := 8.
Definition DOTALL : Z := 16.
Definition UNICODE : Z := 32.
Definition VERBOSE : Z := 64.
End re.

(** What [_re_flags] is given: a compiled regular expression, with its
    source and flags, or anything else. *)
Inductive pattern_value : Type :=
| CompiledPattern (pattern : string) (flags : Z)
| OtherValue.

(** The truth value of an integer in [if]. *)
Definition truthy (z : Z) : bool := negb (Z.eqb z 0).

(** TestCase._re_flags (and [_re_flags] of pretty_print.py) *)
Definition _re_flags (pattern : pattern_value) : string :=
  let result := EmptyString in
  match pattern with
  | CompiledPattern _ flags =>
      let result :=
        if truthy (Z.land flags re.IGNORECASE) then (result ++ "i")%string
        else result in
      let result :=
        if truthy (Z.land flags re.LOCALE) then (result ++ "l")%string
        else result in
      let result :=
        if truthy (Z.land flags re.MULTILINE) then (result ++ "m")%string
        else result in
      let result :=
        if truthy (Z.land flags re.DOTALL) then (result ++ "d")%string
        else result in
      let result :=
        if truthy (Z.land flags re.UNICODE) then (result ++ "u")%string
        else result in
      let result :=
        if truthy (Z.land flags re.VERBOSE) then (result ++ "x")%string
        else result in
      result
  | OtherValue => result
  end.

(** The list [flags] that [_re_flags_repr] builds. *)
Definition re_flag_names (pattern : pattern_value) : list string :=
  let flags := [] in
  match pattern with
  | CompiledPattern _ bits =>
      let flags :=
        if truthy (Z.land bits re.IGNORECASE) then flags ++ ["re.IGNORECASE"]
        else flags in
      let flags :=
        if truthy (Z.land bits re.LOCALE) then flags ++ ["re.LOCALE"]
        else flags in
      let flags :=
        if truthy (Z.land bits re.MULTILINE) then flags ++ ["re.MULTILINE"]
        else flags in
      let flags :=
        if truthy (Z.land bits re.DOTALL) then flags ++ ["re.DOTALL"]
        else flags in
      let flags :=
        if truthy (Z.land bits re.UNICODE) then flags ++ ["re.UNICODE"]
        else flags in
      let flags :=
        if truthy (Z.land bits re.VERBOSE) then flags ++ ["re.VERBOSE"]
        else flags in
      flags
  | OtherValue => flags
  end.

(** TestCase._re_flags_repr (and [_re_flags_repr] of pretty_print.py) *)
Definition _re_flags_repr (pattern : pattern_value) : option string :=
  let flags := re_flag_names pattern in
  if Nat.eqb (List.length flags) 0 then None
  else Some (String.concat " | " flags).

(** The bits of the six flags. *)
Definition rendered_bits : Z := 126.

(* ===================================================================== *)
(** * The methods of the result compute their closed forms *)
(* ===================================================================== *)

Lemma world_eta (w : World) :
  {| result := result w; now := now w; bound := bound w;
     cleared := cleared w; trace := trace w |} = w.
Proof. destruct w; reflexivity. Qed.

Lemma notify_loop_eq (cb : string) (self : TestResult) (args : list hook_arg)
    (ls : list listener) (w : World) :
  result w = self ->
  for_each ls (fun listner =>
      if hasattr listner cb then invoke_hook listner cb args else ret tt) w
  = (completion_of (notify_raises cb ls),
     with_trace (fun t => t ++ map (fun l => Hook l cb self args)
                                   (notified_listeners cb ls)) w).
Proof.
  revert w. induction ls as [|l ls IH]; intros w Hw.
  - cbn. unfold ret, with_trace. rewrite app_nil_r, world_eta. reflexivity.
  - cbn [for_each notified_listeners notify_raises]. unfold bind at 1.
    destruct (hasattr l cb).
    + unfold invoke_hook, bind, self_, observe, modify.
      destruct (hook_raises l cb) as [e|].
      * cbn. rewrite Hw. reflexivity.
      * cbn. rewrite IH by (cbn; exact Hw).
        unfold with_trace. cbn. rewrite Hw, <- app_assoc. reflexivity.
    + unfold ret at 1. apply IH, Hw.
Qed.

Lemma _notify_eq (name : string) (args : list hook_arg) (w : World) :
  _notify name args w
  = (completion_of (notify_raises ("on_" ++ name) (listners (result w))),
     notified name args w).
Proof.
  unfold _notify, bind, self_.
  rewrite (notify_loop_eq _ (result w)) by reflexivity.
  reflexivity.
Qed.

Lemma pass_assertion_eq (test : TestCase) (w : World) :
  pass_assertion test w
  = (completion_of (notify_raises "on_pass_assertion" (listners (result w))),
     passed_assertion test w).
Proof.
  unfold pass_assertion, bind, observe, update_self, modify.
  rewrite _notify_eq. reflexivity.
Qed.

Lemma start_test_eq (test : TestCase) (w : World) :
  start_test test w
  = (completion_of (notify_raises "on_start_test" (listners (result w))),
     started test w).
Proof.
  unfold start_test, bind, observe, update_self, modify, time_time.
  rewrite _notify_eq. reflexivity.
Qed.

Lemma add_error_eq (test : TestCase) (error : Fault) (w : World) :
  add_error test error w
  = (completion_of (notify_raises "on_error" (listners (result w))),
     error_added test error w).
Proof.
  unfold add_error, bind, observe, update_self, modify.
  rewrite _notify_eq. reflexivity.
Qed.

Lemma add_failure_eq (test : TestCase) (failure : Fault) (w : World) :
  add_failure test failure w
  = (completion_of (notify_raises "on_failure" (listners (result w))),
     failure_added test failure w).
Proof.
  unfold add_failure, bind, observe, update_self, modify.
  rewrite _notify_eq. reflexivity.
Qed.

Lemma add_success_eq (test : TestCase) (w : World) :
  add_success test w
  = (completion_of (notify_raises "on_success" (listners (result w))),
     success_added test w).
Proof.
  unfold add_success, bind, observe, modify.
  rewrite _notify_eq. reflexivity.
Qed.

Lemma stop_test_eq (test : TestCase) (t0 : Z) (w : World) :
  _start_at (result w) = Some t0 ->
  stop_test test w = (Normal tt, stopped test t0 w).
Proof.
  intro H.
  unfold stop_test, bind, observe, update_self, modify, time_time, self_.
  cbn. rewrite H. reflexivity.
Qed.

Lemma interrupt_eq (w : World) :
  interrupt w = (Normal tt, interrupt_requested w).
Proof. reflexivity. Qed.

(* ===================================================================== *)
(** * Listeners whose hooks return *)
(* ===================================================================== *)

Lemma notify_raises_none (cb : string) (ls : list listener) :
  (forall l, In l ls -> hook_raises l cb = None) ->
  notify_raises cb ls = None.
Proof.
  induction ls as [|l ls IH]; intro H; [reflexivity|].
  cbn [notify_raises]. rewrite (H l) by (left; reflexivity).
  rewrite IH by (intros l' Hl'; apply H; right; exact Hl').
  destruct (hasattr l cb); reflexivity.
Qed.

Lemma notified_listeners_none (cb : string) (ls : list listener) :
  (forall l, In l ls -> hook_raises l cb = None) ->
  notified_listeners cb ls = filter (fun l => hasattr l cb) ls.
Proof.
  induction ls as [|l ls IH]; intro H; [reflexivity|].
  cbn [notified_listeners filter]. rewrite (H l) by (left; reflexivity).
  rewrite IH by (intros l' Hl'; apply H; right; exact Hl').
  reflexivity.
Qed.

Section HooksReturn.

Variable r : TestResult.
Hypothesis Hr : hooks_return r.

Lemma notify_raises_return (cb : string) :
  notify_raises cb (listners r) = None.
Proof. apply notify_raises_none. intros l Hl. apply Hr, Hl. Qed.

Lemma notified_listeners_return (cb : string) :
  notified_listeners cb (listners r)
  = filter (fun l => hasattr l cb) (listners r).
Proof. apply notified_listeners_none. intros l Hl. apply Hr, Hl. Qed.

Lemma perform_raises_return (a : action) :
  perform_raises (listners r) a = None.
Proof. destruct a; [apply notify_raises_return | reflexivity | reflexivity]. Qed.

Lemma performed_actions_return (acts : list action) :
  performed_actions (listners r) acts = acts.
Proof.
  induction acts as [|a acts IH]; [reflexivity|].
  cbn [performed_actions]. rewrite perform_raises_return, IH. reflexivity.
Qed.

Lemma actions_raise_return (acts : list action) :
  actions_raise (listners r) acts = None.
Proof.
  induction acts as [|a acts IH]; [reflexivity|].
  cbn [actions_raise]. rewrite perform_raises_return. exact IH.
Qed.

Lemma phase_raises_return (code : user_code) :
  phase_raises (listners r) code = ending code.
Proof. unfold phase_raises. rewrite actions_raise_return. reflexivity. Qed.

Lemma effective_return (code : user_code) :
  effective (listners r) code = code.
Proof.
  unfold effective. rewrite performed_actions_return, phase_raises_return.
  destruct code; reflexivity.
Qed.

Lemma effective_test_return (self : TestCase) :
  effective_test (listners r) self = self.
Proof.
  unfold effective_test. rewrite !effective_return.
  destruct self; reflexivity.
Qed.

Lemma entered_return : entered (listners r) = true.
Proof. unfold entered. rewrite notify_raises_return. reflexivity. Qed.

Lemma fault_records_in_return (self : TestCase) :
  fault_records_in (listners r) self = fault_records self.
Proof.
  unfold fault_records_in. rewrite entered_return, !phase_raises_return.
  reflexivity.
Qed.

End HooksReturn.

(* ===================================================================== *)
(** * User code under a bound result *)
(* ===================================================================== *)

Lemma bound_performed (self : TestCase) (w : World) (a : action) :
  bound (performed self w a) = bound w.
Proof. destruct a; reflexivity. Qed.

Lemma listners_performed (self : TestCase) (w : World) (a : action) :
  listners (result (performed self w a)) = listners (result w).
Proof. destruct a; reflexivity. Qed.

Lemma bound_fold_performed (self : TestCase) (acts : list action) (w : World) :
  bound (fold_left (performed self) acts w) = bound w.
Proof.
  revert w. induction acts as [|a acts IH]; intro w; [reflexivity|].
  cbn [fold_left]. rewrite IH. apply bound_performed.
Qed.

Lemma bound_executed (self : TestCase) (p : phase) (code : user_code)
    (w : World) :
  bound (executed self p code w) = bound w.
Proof. unfold executed. rewrite bound_fold_performed. reflexivity. Qed.

Lemma perform_eq (self : TestCase) (a : action) (w : World) :
  is_bound self w = true ->
  perform self a w
  = (completion_of (perform_raises (listners (result w)) a),
     performed self w a).
Proof.
  intro Hb. destruct a; cbn [perform performed perform_raises].
  - unfold _pass_assertion, bind, get. rewrite Hb. apply pass_assertion_eq.
  - apply interrupt_eq.
  - reflexivity.
Qed.

Lemma perform_all_eq (self : TestCase) (ls : list listener)
    (acts : list action) (w : World) :
  listners (result w) = ls ->
  is_bound self w = true ->
  for_each acts (perform self) w
  = (completion_of (actions_raise ls acts),
     fold_left (performed self) (performed_actions ls acts) w).
Proof.
  revert w. induction acts as [|a acts IH]; intros w Hl Hb; [reflexivity|].
  cbn [for_each performed_actions actions_raise]. unfold bind.
  rewrite perform_eq by exact Hb. rewrite Hl.
  destruct (perform_raises ls a) as [e|]; [reflexivity|].
  cbn [completion_of fold_left].
  apply IH.
  - rewrite listners_performed. exact Hl.
  - unfold is_bound. rewrite bound_performed. exact Hb.
Qed.

Lemma execute_eq (self : TestCase) (p : phase) (code : user_code) (w : World) :
  is_bound self w = true ->
  execute self p code w
  = (completion_of (phase_raises (listners (result w)) code),
     executed self p code w).
Proof.
  intro Hb. unfold execute, bind, observe, modify.
  rewrite (perform_all_eq self (listners (result w))) by (reflexivity || exact Hb).
  unfold phase_raises, executed, observed.
  destruct (actions_raise (listners (result w)) (actions code)) as [e|];
    [reflexivity|].
  destruct (ending code); reflexivity.
Qed.
(* ===================================================================== *)
(** * Counting events, and what user code leaves unchanged *)
(* ===================================================================== *)

Arguments executed : simpl never.
Arguments hook_events : simpl never.
Arguments action_events : simpl never.
Arguments _prepare_traceback : simpl never.

Section TraceFacts.

Variable self : TestCase.

Lemma count_app (p : event -> bool) (a b : list event) :
  count p (a ++ b) = count p a + count p b.
Proof. unfold count. rewrite filter_app, length_app. reflexivity. Qed.

Lemma count_cons (p : event -> bool) (e : event) (t : list event) :
  count p (e :: t) = (if p e then 1 else 0) + count p t.
Proof. unfold count. cbn [filter]. destruct (p e); reflexivity. Qed.

Lemma count_nil (p : event -> bool) : count p [] = 0.
Proof. reflexivity. Qed.

Lemma count_zero_Forall (p : event -> bool) (t : list event) :
  Forall (fun e => p e = false) t -> count p t = 0.
Proof.
  induction 1 as [|e t He _ IH]; [reflexivity|].
  rewrite count_cons, He, IH. reflexivity.
Qed.

Lemma hook_events_quiet (args : list hook_arg) (r : TestResult) :
  Forall (fun e => quiet e = true) (hook_events "pass_assertion" args r).
Proof.
  unfold hook_events. apply Forall_forall. intros e He.
  apply in_map_iff in He. destruct He as (l & <- & _). reflexivity.
Qed.

Lemma action_events_quiet (acts : list action) (w : World) :
  Forall (fun e => quiet e = true) (action_events self acts w).
Proof.
  revert w. induction acts as [|a acts IH]; intro w.
  - constructor.
  - change (action_events self (a :: acts) w)
      with (events_of_action self a w
            ++ action_events self acts (performed self w a)).
    apply Forall_app. split; [|apply IH].
    destruct a; cbn [events_of_action].
    + constructor; [reflexivity|apply hook_events_quiet].
    + constructor; [reflexivity|constructor].
    + constructor.
Qed.

Lemma count_action_events (p : event -> bool) (acts : list action)
    (w : World) :
  quiet_free p -> count p (action_events self acts w) = 0.
Proof.
  intro Hp. apply count_zero_Forall.
  eapply Forall_impl; [|apply action_events_quiet].
  intros e He. apply Hp, He.
Qed.

Lemma count_hook_events_free (p : event -> bool) (name : string)
    (args : list hook_arg) (r : TestResult) :
  hook_free p -> count p (hook_events name args r) = 0.
Proof.
  intro Hp. apply count_zero_Forall. unfold hook_events.
  apply Forall_forall. intros e He.
  apply in_map_iff in He. destruct He as (l & <- & _). apply Hp.
Qed.

Lemma count_hook_events_other (cb name : string) (args : list hook_arg)
    (r : TestResult) :
  String.eqb ("on_" ++ name) cb = false ->
  count (is_hook cb) (hook_events name args r) = 0.
Proof.
  intro Hne. apply count_zero_Forall. unfold hook_events.
  apply Forall_forall. intros e He.
  apply in_map_iff in He. destruct He as (l & <- & _). exact Hne.
Qed.

Lemma trace_performed (w : World) (a : action) :
  trace (performed self w a) = trace w ++ events_of_action self a w.
Proof.
  destruct a; cbn.
  - rewrite <- app_assoc. reflexivity.
  - reflexivity.
  - rewrite app_nil_r. reflexivity.
Qed.

Lemma trace_fold_performed (acts : list action) (w : World) :
  trace (fold_left (performed self) acts w)
  = trace w ++ action_events self acts w.
Proof.
  revert w. induction acts as [|a acts IH]; intro w.
  - cbn. rewrite app_nil_r. reflexivity.
  - cbn [fold_left]. rewrite IH, trace_performed, <- app_assoc.
    reflexivity.
Qed.

Lemma trace_executed (p : phase) (code : user_code) (w : World) :
  trace (executed self p code w)
  = trace w ++ Phase self p
      :: action_events self
           (performed_actions (listners (result w)) (actions code))
           (observed (Phase self p) w).
Proof.
  unfold executed. rewrite trace_fold_performed. cbn.
  rewrite <- app_assoc. reflexivity.
Qed.

Lemma fold_performed_preserves {X} (f : World -> X) :
  (forall w a, f (performed self w a) = f w) ->
  forall acts w, f (fold_left (performed self) acts w) = f w.
Proof.
  intros Hf acts. induction acts as [|a acts IH]; intro w; [reflexivity|].
  cbn [fold_left]. rewrite IH. apply Hf.
Qed.

Lemma executed_preserves {X} (f : World -> X) (p : phase)
    (code : user_code) (w : World) :
  (forall w e, f (observed e w) = f w) ->
  (forall w a, f (performed self w a) = f w) ->
  f (executed self p code w) = f w.
Proof.
  intros Ho Hp. unfold executed.
  rewrite fold_performed_preserves by exact Hp. apply Ho.
Qed.

Lemma start_at_executed (p : phase) (code : user_code) (w : World) :
  _start_at (result (executed self p code w)) = _start_at (result w).
Proof.
  apply (executed_preserves (fun w => _start_at (result w)));
    [reflexivity | intros w0 [| |dt]; reflexivity].
Qed.

Lemma faults_executed (p : phase) (code : user_code) (w : World) :
  faults (result (executed self p code w)) = faults (result w).
Proof.
  apply (executed_preserves (fun w => faults (result w)));
    [reflexivity | intros w0 [| |dt]; reflexivity].
Qed.

Lemma listners_executed (p : phase) (code : user_code) (w : World) :
  listners (result (executed self p code w)) = listners (result w).
Proof.
  apply (executed_preserves (fun w => listners (result w)));
    [reflexivity | intros w0 [| |dt]; reflexivity].
Qed.

(** The flag is only ever set. *)
Lemma interrupted_executed (p : phase) (code : user_code) (w : World) :
  interrupted (result w) = true ->
  interrupted (result (executed self p code w)) = true.
Proof.
  unfold executed.
  generalize (performed_actions (listners (result w)) (actions code)).
  change (interrupted (result w))
    with (interrupted (result (observed (Phase self p) w))).
  generalize (observed (Phase self p) w). clear w.
  intros w acts. revert w.
  induction acts as [|a acts IH]; intros w Hw; [exact Hw|].
  cbn [fold_left]. apply IH. destruct a; [exact Hw | reflexivity | exact Hw].
Qed.

End TraceFacts.

Lemma skipn_length_app {A} (a d : list A) :
  skipn (List.length a) (a ++ d) = d.
Proof. induction a as [|x a IH]; [reflexivity | exact IH]. Qed.

Lemma events_since_app (w w' : World) (d : list event) :
  trace w' = trace w ++ d -> events_since w w' = d.
Proof. intro H. unfold events_since. rewrite H. apply skipn_length_app. Qed.

Lemma faults_since_app (w w' : World) (d : list Fault) :
  faults (result w') = faults (result w) ++ d -> faults_since w w' = d.
Proof. intro H. unfold faults_since. rewrite H. apply skipn_length_app. Qed.

Lemma quiet_free_phase (self : TestCase) (p : phase) :
  quiet_free (is_phase_of self p).
Proof. intros [m|l cb r a|t q] H; [reflexivity | reflexivity | discriminate]. Qed.

Lemma quiet_free_add_success (self : TestCase) :
  quiet_free (is_add_success_of self).
Proof.
  intros [m|l cb r a|t q] H; [|reflexivity|discriminate].
  destruct m; try reflexivity; discriminate.
Qed.

Lemma quiet_free_start_test (self : TestCase) :
  quiet_free (is_start_test_of self).
Proof.
  intros [m|l cb r a|t q] H; [|reflexivity|discriminate].
  destruct m; try reflexivity; discriminate.
Qed.

Lemma quiet_free_on_success : quiet_free (is_hook "on_success").
Proof.
  intros [m|l cb r a|t q] H; [reflexivity| |reflexivity].
  cbn in *. apply String.eqb_eq in H. subst cb. reflexivity.
Qed.

Lemma hook_free_phase (self : TestCase) (p : phase) :
  hook_free (is_phase_of self p).
Proof. intros l cb r a. reflexivity. Qed.

Lemma hook_free_add_success (self : TestCase) :
  hook_free (is_add_success_of self).
Proof. intros l cb r a. reflexivity. Qed.

Lemma hook_free_start_test (self : TestCase) :
  hook_free (is_start_test_of self).
Proof. intros l cb r a. reflexivity. Qed.

Lemma same_test_refl (self : TestCase) : same_test self self = true.
Proof. apply Nat.eqb_refl. Qed.

(* ===================================================================== *)
(** * Symbolic evaluation of [TestCase.run] *)
(* ===================================================================== *)

Ltac solve_bound :=
  unfold is_bound; cbn; rewrite ?bound_executed; cbn;
  rewrite ?bound_executed; cbn; rewrite Nat.eqb_refl; reflexivity.

Ltac solve_start_at :=
  repeat (cbn; rewrite ?start_at_executed); reflexivity.

Ltac unfold_control :=
  cbv beta iota zeta delta
    [run run_body call try_finally try_except bind in_world ret raise return_
     modify get assign_success read_success bind_result unbind_result
     select_handler any_exception world success fst snd
     _add_error _add_failure call_interrupted_attribute self_
     completion_of].

(** The listeners stay those of the world the run started in. *)
Ltac same_listners :=
  repeat (cbn [listners result observed notified with_trace with_result
               with_bound with_cleared with_now started stopped error_added
               success_added set_faults set_elapsed set__stop_at
               set__start_at set_n_tests];
          rewrite ?listners_executed).

(** One step: name the world after the next method call, or split on
    whether a notification raises, on how a phase ends and on which
    [except] clause takes its exception. *)
Ltac run_step :=
  unfold_control;
  match goal with
  | |- context [start_test ?t ?w] =>
      rewrite (start_test_eq t w); same_listners
  | |- context [execute ?s ?p ?c ?w] =>
      rewrite (execute_eq s p c w) by solve_bound; same_listners
  | |- context [add_error ?t ?f ?w] =>
      rewrite (add_error_eq t f w); same_listners
  | |- context [add_success ?t ?w] =>
      rewrite (add_success_eq t w); same_listners
  | |- context [stop_test ?t ?w] =>
      erewrite (stop_test_eq t _ w) by solve_start_at
  | E : notify_raises ?cb ?ls = _ |- context [notify_raises ?cb ?ls] =>
      rewrite E
  | E : phase_raises ?ls ?c = _ |- context [phase_raises ?ls ?c] =>
      rewrite E
  | |- context [match notify_raises ?cb ?ls with _ => _ end] =>
      let E := fresh "Hhook" in destruct (notify_raises cb ls) eqn:E
  | |- context [match phase_raises ?ls ?c with _ => _ end] =>
      let E := fresh "Hend" in destruct (phase_raises ls c) eqn:E
  | |- context [match ending ?c with _ => _ end] =>
      let E := fresh "Hend" in destruct (ending c) eqn:E
  | |- context [if is_AssertionFailure ?e then _ else _] =>
      let E := fresh "Haf" in destruct (is_AssertionFailure e) eqn:E
  | |- context [if is_KeyboardInterrupt ?e then _ else _] =>
      let E := fresh "Hki" in destruct (is_KeyboardInterrupt e) eqn:E
  end.

Ltac run_cases := repeat run_step; unfold_control.

(** Bring the trace (the faults) of the final world to the form
    [trace w ++ d]. *)
Ltac expose_trace :=
  repeat (cbn [trace result observed notified with_trace with_result
               with_bound with_cleared with_now started stopped error_added
               success_added];
          rewrite ?trace_executed);
  rewrite <- ?app_assoc; cbn [app].

Ltac expose_faults :=
  repeat (cbn [faults result observed notified with_trace with_result
               with_bound with_cleared with_now started stopped error_added
               success_added
               set_faults set_elapsed set__stop_at set__start_at set_n_tests];
          rewrite ?faults_executed);
  rewrite <- ?app_assoc; cbn [app].

Lemma is_AssertionFailure_not_KeyboardInterrupt (e : exn) :
  is_AssertionFailure e = true -> is_KeyboardInterrupt e = false.
Proof.
  unfold is_AssertionFailure, is_KeyboardInterrupt.
  destruct (exc_type e); intro H; try discriminate; reflexivity.
Qed.

(** The events of one run, and how to count them. *)
Ltac count_events :=
  repeat first
    [ rewrite count_app
    | rewrite count_cons
    | rewrite count_nil
    | rewrite count_action_events
        by first [ apply quiet_free_phase | apply quiet_free_add_success
                 | apply quiet_free_start_test | apply quiet_free_on_success ]
    | rewrite count_hook_events_free
        by first [ apply hook_free_phase | apply hook_free_add_success
                 | apply hook_free_start_test ]
    | rewrite count_hook_events_other by reflexivity ];
  cbn [is_phase_of is_add_success_of is_start_test_of is_hook phase_eqb andb];
  rewrite ?same_test_refl; cbn [andb].

(** Use the equations on endings and classes in the goal. *)
Ltac use_cases_goal :=
  repeat first
    [ match goal with
      | E : ending _ = _ |- _ => rewrite E
      | E : phase_raises _ _ = _ |- _ => rewrite E
      | E : notify_raises _ _ = _ |- _ => rewrite E
      | E : is_KeyboardInterrupt _ = _ |- _ => rewrite E
      | E : is_AssertionFailure _ = _ |- _ => rewrite E
      | E : is_AssertionFailure _ = true |- _ =>
          rewrite (is_AssertionFailure_not_KeyboardInterrupt _ E)
      end ].

(* ===================================================================== *)
(* ===================================================================== *)
(** * Properties of [TestCase.run] *)
(* ===================================================================== *)

(** The endings of the phases of a test as it unfolds with listeners. *)
Ltac unfold_effective :=
  unfold entered, all_complete, cancelled, completes,
    raises_KeyboardInterrupt, effective_test, effective;
  cbn [setup test_method teardown ending actions].

(** With listeners whose hooks return, no notification raises and a phase
    ends as its code does. *)
Ltac hooks_return_in Hr self w :=
  pose proof (notify_raises_return (result w) Hr "on_start_test");
  pose proof (notify_raises_return (result w) Hr "on_error");
  pose proof (notify_raises_return (result w) Hr "on_success");
  pose proof (phase_raises_return (result w) Hr (setup self));
  pose proof (phase_raises_return (result w) Hr (test_method self));
  pose proof (phase_raises_return (result w) Hr (teardown self)).

(** The faults a run appends, whatever its phases and the hooks do. *)
Lemma run_faults (self : TestCase) (w : World) :
  faults (result (snd (run self w)))
  = faults (result w) ++ fault_records_in (listners (result w)) self.
Proof.
  run_cases; unfold fault_records_in, entered; use_cases_goal;
    expose_faults; rewrite ?app_nil_r; reflexivity.
Qed.

(** A run neither registers nor removes a listener. *)
Lemma run_listners (self : TestCase) (w : World) :
  listners (result (snd (run self w))) = listners (result w).
Proof. run_cases; same_listners; reflexivity. Qed.

(** With hooks that return, a run without cancellation returns normally,
    and a run with cancellation ends with the TypeError of the call
    [result.interrupted()]. *)
Lemma run_completion (self : TestCase) (w : World) :
  hooks_return (result w) ->
  fst (run self w)
  = if cancelled self then Raised bool_not_callable else Normal tt.
Proof.
  intro Hr. hooks_return_in Hr self w.
  unfold cancelled, raises_KeyboardInterrupt, completes.
  run_cases; use_cases_goal; cbn [orb andb];
    rewrite ?orb_true_r; reflexivity.
Qed.

Lemma run_returns (self : TestCase) (w : World) :
  hooks_return (result w) ->
  cancelled self = false -> fst (run self w) = Normal tt.
Proof. intros Hr H. rewrite run_completion, H by exact Hr. reflexivity. Qed.

(** What leaves a run is the TypeError of [result.interrupted()], after a
    phase raised the cancellation signal, or what a hook raised under
    [start_test], [add_error] or [add_success]. *)
Lemma run_raises_only (self : TestCase) (w : World) (e : exn) :
  fst (run self w) = Raised e ->
  (e = bool_not_callable
   /\ cancelled (effective_test (listners (result w)) self) = true)
  \/ notify_raises "on_start_test" (listners (result w)) = Some e
  \/ notify_raises "on_error" (listners (result w)) = Some e
  \/ notify_raises "on_success" (listners (result w)) = Some e.
Proof.
  unfold_effective. run_cases; use_cases_goal; cbn [fst orb andb];
    intro H; try discriminate H.
  all: try (injection H as <-).
  all: first
         [ left; split; [reflexivity|]; rewrite ?orb_true_r; reflexivity
         | right; left; reflexivity
         | right; right; left; reflexivity
         | right; right; right; reflexivity ].
Qed.

(** [add_success] is called once when [start_test] returns and the three
    phases complete, and not at all otherwise. *)
Lemma run_add_success_calls (self : TestCase) (w : World) :
  let w' := snd (run self w) in
  trace w' = trace w ++ events_since w w' /\
  count (is_add_success_of self) (events_since w w')
  = if entered (listners (result w))
    then if all_complete (effective_test (listners (result w)) self)
         then 1 else 0
    else 0.
Proof.
  cbv zeta. run_cases.
  all: match goal with
       | |- trace ?w' = _ /\ _ = ?n =>
           assert (Ht : exists d, trace w' = trace w ++ d
                                  /\ count (is_add_success_of self) d = n)
       end.
  all: try (destruct Ht as (d & Ht & Hd);
            rewrite (events_since_app _ _ _ Ht); split; assumption).
  all: expose_trace; eexists; split; [reflexivity|].
  all: unfold_effective; use_cases_goal; cbn [andb].
  all: count_events; reflexivity.
Qed.

(** C7, amended.  In every call of [TestCase.run], whatever [setup], the
    test method, [teardown] and the hooks of the listeners do, the trace
    of the run extends the trace before it and holds exactly one
    invocation of this test's [teardown] when [result.start_test(self)]
    returns, and none when it raises: [start_test] is called before the
    [try] whose [finally] clause invokes [teardown]. *)
Theorem run_teardown_once_after_start_test (self : TestCase) (w : World) :
  let w' := snd (run self w) in
  trace w' = trace w ++ events_since w w' /\
  count (is_phase_of self Teardown) (events_since w w')
  = if entered (listners (result w)) then 1 else 0.
Proof.
  cbv zeta. run_cases.
  all: match goal with
       | |- trace ?w' = _ /\ _ = ?n =>
           assert (Ht : exists d, trace w' = trace w ++ d
                                  /\ count (is_phase_of self Teardown) d = n)
       end.
  all: try (destruct Ht as (d & Ht & Hd);
            rewrite (events_since_app _ _ _ Ht); split; assumption).
  all: expose_trace; eexists; split; [reflexivity|].
  all: unfold entered; use_cases_goal; count_events; reflexivity.
Qed.

(** C7 as stated fails when a listener's [on_start_test] hook raises: the
    exception leaves [start_test] and the run before any phase is
    entered; the run consists of the calls of [start_test] and
    [stop_test] and [teardown] is not invoked. *)
Lemma teardown_skipped_when_start_test_raises :
  fst (run first_test failing_start_world) = Raised RuntimeError_raised /\
  events_since failing_start_world (snd (run first_test failing_start_world))
  = [ Call (CallStartTest first_test);
      Hook failing_start_listener "on_start_test"
           (result (snd (start_test first_test failing_start_world)))
           [TestArg first_test];
      Call (CallStopTest first_test) ] /\
  count (is_phase_of first_test Teardown)
        (events_since failing_start_world
           (snd (run first_test failing_start_world))) = 0 /\
  ~ teardown_invoked_once first_test failing_start_world.
Proof.
  split; [reflexivity|]. split; [reflexivity|]. split; [reflexivity|].
  unfold teardown_invoked_once. vm_compute. discriminate.
Qed.

(** C6.  When [start_test] returns, [setup] and the test method complete
    and [teardown] raises an exception other than the cancellation
    signal, the run appends exactly one fault, the Error built from the
    exception of [teardown], never calls [add_success] for the test and
    invokes no [on_success] hook; it ends as the [on_error] hooks do:
    it returns normally when they return. *)
Theorem run_teardown_error_after_passing_body
    (self : TestCase) (w : World) (e : exn) :
  entered (listners (result w)) = true ->
  phase_raises (listners (result w)) (setup self) = None ->
  phase_raises (listners (result w)) (test_method self) = None ->
  phase_raises (listners (result w)) (teardown self) = Some e ->
  is_KeyboardInterrupt e = false ->
  let w' := snd (run self w) in
  fst (run self w)
  = completion_of (notify_raises "on_error" (listners (result w))) /\
  faults (result w') = faults (result w) ++ [Error_for self e] /\
  trace w' = trace w ++ events_since w w' /\
  count (is_add_success_of self) (events_since w w') = 0 /\
  count (is_hook "on_success") (events_since w w') = 0.
Proof.
  intros Hst Hs Hb Ht Hk. cbv zeta. unfold entered in Hst.
  run_cases; try congruence.
  all: (split; [use_cases_goal; reflexivity|]).
  all: (split; [expose_faults; reflexivity|]).
  all: match goal with
       | |- trace ?w' = _ /\ _ =>
           assert (H : exists d, trace w' = trace w ++ d
                      /\ count (is_add_success_of self) d = 0
                      /\ count (is_hook "on_success") d = 0)
       end.
  all: try (destruct H as (d & H & Hd1 & Hd2);
            rewrite (events_since_app _ _ _ H); repeat split; assumption).
  all: expose_trace; eexists; (split; [reflexivity|]).
  all: split; count_events; reflexivity.
Qed.

Lemma run_teardown_error_after_passing_body_witness :
  fst (run teardown_failing_test fresh_world) = Normal tt /\
  faults (result (snd (run teardown_failing_test fresh_world)))
  = faults (result fresh_world)
    ++ [Error_for teardown_failing_test IOError_raised] /\
  trace (snd (run teardown_failing_test fresh_world))
  = trace fresh_world
    ++ events_since fresh_world (snd (run teardown_failing_test fresh_world)) /\
  count (is_add_success_of teardown_failing_test)
        (events_since fresh_world (snd (run teardown_failing_test fresh_world)))
  = 0 /\
  count (is_hook "on_success")
        (events_since fresh_world (snd (run teardown_failing_test fresh_world)))
  = 0.
Proof.
  apply (run_teardown_error_after_passing_body
           teardown_failing_test fresh_world IOError_raised); reflexivity.
Defined.

(** C8.  Every exception other than the cancellation signal raised by
    [setup], the test method or [teardown] inside a run is caught and
    turned into one Fault record appended to the result's faults, whatever
    the hooks do; and no exception of a phase leaves the run: what leaves
    it is the TypeError of the call [result.interrupted()], after a phase
    raised the cancellation signal, or what a hook raised under
    [start_test], [add_error] or [add_success].  With hooks that return,
    a run in which no phase raises the cancellation signal returns
    normally. *)
Theorem run_records_faults_none_escapes (self : TestCase) (w : World) :
  faults (result (snd (run self w)))
  = faults (result w) ++ fault_records_in (listners (result w)) self /\
  (forall e, fst (run self w) = Raised e ->
     (e = bool_not_callable
      /\ cancelled (effective_test (listners (result w)) self) = true)
     \/ notify_raises "on_start_test" (listners (result w)) = Some e
     \/ notify_raises "on_error" (listners (result w)) = Some e
     \/ notify_raises "on_success" (listners (result w)) = Some e) /\
  (hooks_return (result w) ->
   fault_records_in (listners (result w)) self = fault_records self /\
   (cancelled self = false -> fst (run self w) = Normal tt)).
Proof.
  split; [apply run_faults|].
  split; [intros e; apply run_raises_only|].
  intro Hr. split; [apply fault_records_in_return, Hr|].
  apply run_returns, Hr.
Qed.

(** A run with a listener whose [on_error] hook raises: the test method
    and [teardown] both raise, both Errors are recorded, [teardown] is
    invoked after the hook raised under the first, and the exception of
    the hook leaves the run. *)
Example run_with_raising_on_error_hook :
  fst (run twice_failing_test failing_error_world)
  = Raised RuntimeError_raised /\
  faults_since failing_error_world
    (snd (run twice_failing_test failing_error_world))
  = [ Error_for twice_failing_test ZeroDivisionError_raised;
      Error_for twice_failing_test IOError_raised ] /\
  phases_of twice_failing_test
    (events_since failing_error_world
       (snd (run twice_failing_test failing_error_world)))
  = [Setup; Body; Teardown] /\
  count (is_hook "on_error")
    (events_since failing_error_world
       (snd (run twice_failing_test failing_error_world))) = 2.
Proof. repeat split. Qed.

Lemma fault_records_in_counts (ls : list listener) (self : TestCase) :
  entered ls = true ->
  cancelled (effective_test ls self) = false ->
  if all_complete (effective_test ls self)
  then fault_records_in ls self = []
  else 1 <= List.length (fault_records_in ls self) <= 2
       /\ List.length (filter is_Failure (fault_records_in ls self)) <= 1
       /\ (List.length (fault_records_in ls self) = 2 ->
           completes (teardown (effective_test ls self)) = false).
Proof.
  intro He. unfold fault_records_in. rewrite He. unfold_effective.
  destruct (phase_raises ls (setup self)) as [es|];
    destruct (phase_raises ls (test_method self)) as [eb|];
    destruct (phase_raises ls (teardown self)) as [et|]; cbn;
    try destruct (is_KeyboardInterrupt es);
    try destruct (is_AssertionFailure eb) eqn:Haf;
    try rewrite (is_AssertionFailure_not_KeyboardInterrupt _ Haf);
    try destruct (is_KeyboardInterrupt eb);
    try destruct (is_KeyboardInterrupt et); cbn;
    intro H; try discriminate H;
    repeat split; try lia; try discriminate; reflexivity.
Qed.

(** C2, amended.  In a run in which [start_test] returns and no phase
    raises the cancellation signal, exactly one of two things happens:
    [add_success] is called once and no fault is appended; or
    [add_success] is not called and one or two faults are appended, at
    most one of them a Failure, and two only when [teardown] raised. *)
Theorem run_success_or_faults (self : TestCase) (w : World) :
  entered (listners (result w)) = true ->
  cancelled (effective_test (listners (result w)) self) = false ->
  let w' := snd (run self w) in
  let new_faults := faults_since w w' in
  let successes := count (is_add_success_of self) (events_since w w') in
  faults (result w') = faults (result w) ++ new_faults /\
  ((successes = 1 /\ new_faults = []) \/
   (successes = 0 /\ 1 <= List.length new_faults <= 2
    /\ List.length (filter is_Failure new_faults) <= 1
    /\ (List.length new_faults = 2 ->
        completes (teardown (effective_test (listners (result w)) self))
        = false))).
Proof.
  intros He H w' new_faults successes.
  pose proof (run_faults self w) as Hf.
  destruct (run_add_success_calls self w) as [_ Hs].
  fold w' in Hf, Hs. fold successes in Hs.
  assert (Hn : new_faults = fault_records_in (listners (result w)) self)
    by (apply faults_since_app, Hf).
  rewrite Hn, Hs, He. split; [exact Hf|].
  pose proof (fault_records_in_counts _ self He H) as Hr.
  destruct (all_complete (effective_test (listners (result w)) self)).
  - left. split; [reflexivity|exact Hr].
  - right. split; [reflexivity|exact Hr].
Qed.

Lemma run_success_or_faults_witness :
  faults (result (snd (run twice_failing_test failing_error_world)))
  = faults (result failing_error_world)
    ++ faults_since failing_error_world
         (snd (run twice_failing_test failing_error_world)) /\
  ((count (is_add_success_of twice_failing_test)
          (events_since failing_error_world
             (snd (run twice_failing_test failing_error_world)))
    = 1 /\
    faults_since failing_error_world
      (snd (run twice_failing_test failing_error_world)) = [])
   \/
   (count (is_add_success_of twice_failing_test)
          (events_since failing_error_world
             (snd (run twice_failing_test failing_error_world)))
    = 0 /\
    1 <= List.length (faults_since failing_error_world
                        (snd (run twice_failing_test failing_error_world)))
      <= 2 /\
    List.length (filter is_Failure
                   (faults_since failing_error_world
                      (snd (run twice_failing_test failing_error_world))))
    <= 1 /\
    (List.length (faults_since failing_error_world
                    (snd (run twice_failing_test failing_error_world))) = 2 ->
     completes
       (teardown (effective_test (listners (result failing_error_world))
                                 twice_failing_test))
     = false))).
Proof.
  apply (run_success_or_faults twice_failing_test failing_error_world);
    reflexivity.
Defined.

(** C2 as stated fails when the test method and [teardown] both raise:
    two Errors are appended, so none of the three alternatives holds. *)
Lemma two_errors_in_one_run :
  faults_since fresh_world (snd (run twice_failing_test fresh_world))
  = [ Error_for twice_failing_test ZeroDivisionError_raised;
      Error_for twice_failing_test IOError_raised ]
  /\ ~ exactly_one_outcome twice_failing_test fresh_world.
Proof.
  split; [reflexivity|].
  unfold exactly_one_outcome, exactly_one_of.
  vm_compute. intros [(H & _) | [(_ & H & _) | (_ & _ & H)]].
  - inversion H.
  - discriminate H.
  - discriminate H.
Qed.
(* ===================================================================== *)
(** * Properties of [TestSuite.run] *)
(* ===================================================================== *)

(** [start_test] is called once in every run of a test case. *)
Lemma run_start_test_calls (self : TestCase) (w : World) :
  count (is_start_test_of self) (events_since w (snd (run self w))) = 1.
Proof.
  run_cases.
  all: match goal with
       | |- count _ (events_since _ ?w') = _ =>
           assert (Ht : exists d, trace w' = trace w ++ d
                                  /\ count (is_start_test_of self) d = 1)
       end.
  all: try (destruct Ht as (d & Ht & Hd);
            rewrite (events_since_app _ _ _ Ht); assumption).
  all: expose_trace; eexists; split; [reflexivity|]; count_events; reflexivity.
Qed.

(** Nothing in a run resets the flag. *)
Lemma run_keeps_interrupted (self : TestCase) (w : World) :
  interrupted (result w) = true ->
  interrupted (result (snd (run self w))) = true.
Proof.
  intro H. run_cases.
  all: repeat first
         [ assumption
         | apply interrupted_executed
         | progress cbn [interrupted result observed notified with_trace
                         with_result with_bound with_cleared with_now
                         started stopped
                         error_added success_added set_faults set_elapsed
                         set__stop_at set__start_at set_n_tests] ].
Qed.

Lemma suite_loop_keeps_interrupted (tests : list Test) :
  Forall (fun t => forall w, interrupted (result w) = true ->
                   interrupted (result (snd (Test_run t w))) = true) tests ->
  forall w, interrupted (result w) = true ->
  interrupted (result (snd (Test_run (Suite tests) w))) = true.
Proof.
  induction 1 as [|t ts Ht _ IH]; intros w Hw; [exact Hw|].
  specialize (Ht w Hw).
  change (Test_run (Suite (t :: ts)) w)
    with ((Test_run t ;;
           stop <- need_interrupt ;;
           if stop then ret tt else Test_run (Suite ts)) w).
  unfold bind at 1. destruct (Test_run t w) as [[[]| |e] w1]; cbn [snd] in *;
    try exact Ht.
  cbv beta iota delta [bind need_interrupt self_ ret].
  rewrite Ht. exact Ht.
Qed.

Lemma Test_run_keeps_interrupted (t : Test) (w : World) :
  interrupted (result w) = true ->
  interrupted (result (snd (Test_run t w))) = true.
Proof.
  revert w. induction t as [tc|tests IH] using Test_induction; intros w Hw.
  - apply run_keeps_interrupted, Hw.
  - apply suite_loop_keeps_interrupted; assumption.
Qed.

(** C10.  When [need_interrupt()] is already true as [TestSuite.run] begins
    on a suite with a first child, the suite does exactly what running
    that child does: the child is run, the flag is read only after it,
    and no other child is run.  A first child that is a test case has its
    [start_test] called once. *)
Theorem suite_runs_first_child_when_interrupted
    (test : Test) (rest : list Test) (w : World) :
  interrupted (result w) = true ->
  TestSuite_run (test :: rest) w = Test_run test w /\
  (forall tc, test = Case tc ->
     count (is_start_test_of tc)
           (events_since w (snd (TestSuite_run (test :: rest) w))) = 1).
Proof.
  intro Hw.
  assert (Heq : TestSuite_run (test :: rest) w = Test_run test w).
  { unfold TestSuite_run.
    change (Test_run (Suite (test :: rest)) w)
      with ((Test_run test ;;
             stop <- need_interrupt ;;
             if stop then ret tt else Test_run (Suite rest)) w).
    pose proof (Test_run_keeps_interrupted test w Hw) as Hafter.
    unfold bind at 1.
    destruct (Test_run test w) as [[[]| |e] w1]; cbn [snd] in Hafter;
      try reflexivity.
    cbv beta iota delta [bind need_interrupt self_ ret].
    rewrite Hafter. reflexivity. }
  split; [exact Heq|].
  intros tc ->. rewrite Heq. apply run_start_test_calls.
Qed.

Lemma suite_runs_first_child_when_interrupted_witness :
  TestSuite_run [Case first_test; Case second_test] interrupted_world
  = Test_run (Case first_test) interrupted_world /\
  (forall tc, Case first_test = Case tc ->
     count (is_start_test_of tc)
           (events_since interrupted_world
              (snd (TestSuite_run [Case first_test; Case second_test]
                                  interrupted_world))) = 1).
Proof.
  apply (suite_runs_first_child_when_interrupted
           (Case first_test) [Case second_test] interrupted_world).
  reflexivity.
Defined.

(** C1, evaluated.  A suite of two tests on a fresh result, the first
    test's method raising the cancellation signal: the handler's call
    [result.interrupted()] raises TypeError; the first test's [teardown]
    and [stop_test] still happen and the second test is never started,
    but the flag stays false and the suite's run ends with the TypeError
    instead of returning. *)
Theorem suite_cancelled_in_body_evaluated :
  let outcome :=
    TestSuite_run [Case cancelled_test; Case second_test] fresh_world in
  fst outcome
  = Raised {| exc_type := TypeError;
              exc_detail := "'bool' object is not callable";
              exc_traceback := [] |} /\
  interrupted (result (snd outcome)) = false /\
  count (is_phase_of cancelled_test Teardown) (trace (snd outcome)) = 1 /\
  count (is_stop_test_of cancelled_test) (trace (snd outcome)) = 1 /\
  count (is_start_test_of second_test) (trace (snd outcome)) = 0 /\
  n_tests (result (snd outcome)) = 1.
Proof. vm_compute. repeat split. Qed.

(* ===================================================================== *)
(** * Properties of [TestResult] *)
(* ===================================================================== *)

Lemma hooks_of_hook_events (name : string) (args : list hook_arg)
    (r : TestResult) :
  hooks_of (hook_events name args r) = hook_events name args r.
Proof.
  unfold hooks_of, hook_events.
  induction (notified_listeners _ (listners r)) as [|l ls IH];
    [reflexivity|].
  cbn. f_equal. exact IH.
Qed.

(** C9.  [succeeded()] is true exactly when no fault is stored, and false
    exactly when some fault, a Failure or an Error, has been recorded. *)
Theorem succeeded_iff_no_faults (r : TestResult) :
  (succeeded r = true <-> faults r = []) /\
  (succeeded r = false <-> exists f, In f (faults r)) /\
  (succeeded r = false <-> 1 <= n_failures r + n_errors r).
Proof.
  unfold succeeded, n_failures, n_errors.
  destruct (faults r) as [|f fs]; cbn [List.length Nat.eqb].
  - repeat split; try reflexivity; try discriminate.
    + intros [f []].
    + cbn. lia.
  - repeat split; try discriminate; try reflexivity.
    + intros _. exists f. left. reflexivity.
    + intros _. cbn [filter]. destruct f; cbn; lia.
Qed.

(** C3, evaluated.  A listener that implements every hook, registered on
    a fresh result: [start_test] invokes its [on_start_test] with the
    aggregator and the test, but [stop_test] invokes nothing, although the
    listener has [on_stop_test]. *)
Theorem stop_test_notifies_nobody_evaluated :
  hasattr full_listener "on_stop_test" = true /\
  events_since listening_world started_world
  = [ Call (CallStartTest first_test);
      Hook full_listener "on_start_test" (result started_world)
           [TestArg first_test] ] /\
  fst (stop_test first_test started_world) = Normal tt /\
  events_since started_world (snd (stop_test first_test started_world))
  = [ Call (CallStopTest first_test) ].
Proof. repeat split. Qed.

(** C5 as stated fails with a listener that implements only [on_error]:
    [add_error] invokes it, [add_failure] invokes nothing. *)
Lemma add_error_and_add_failure_notify_differently :
  hooks_of (events_since error_listening_world
              (snd (add_error first_test sample_fault error_listening_world)))
  = [ Hook error_listener "on_error"
           (set_faults [sample_fault] (result error_listening_world))
           [FaultArg sample_fault] ] /\
  hooks_of (events_since error_listening_world
              (snd (add_failure first_test sample_fault error_listening_world)))
  = [] /\
  ~ same_effect first_test sample_fault error_listening_world.
Proof.
  split; [reflexivity|]. split; [reflexivity|].
  intros [_ H]. vm_compute in H. discriminate H.
Qed.

(** C5, amended.  [add_error] and [add_failure] both append the fault to
    [faults] and leave one and the same result; they differ in the hook
    they invoke: [add_error] invokes [on_error] and [add_failure] invokes
    [on_failure], each on the listeners that have that hook, in
    registration order, with the aggregator and the fault, up to the
    first whose hook raises, and each ends as its hooks do.  When no hook
    raises both return normally and the listeners invoked are all those
    that have the hook. *)
Theorem add_error_add_failure_same_storage
    (test : TestCase) (fault : Fault) (w : World) :
  let we := snd (add_error test fault w) in
  let wf := snd (add_failure test fault w) in
  result we = result wf /\
  faults (result we) = faults (result w) ++ [fault] /\
  hooks_of (events_since w we)
  = map (fun l => Hook l "on_error" (result we) [FaultArg fault])
        (notified_listeners "on_error" (listners (result w))) /\
  hooks_of (events_since w wf)
  = map (fun l => Hook l "on_failure" (result wf) [FaultArg fault])
        (notified_listeners "on_failure" (listners (result w))) /\
  fst (add_error test fault w)
  = completion_of (notify_raises "on_error" (listners (result w))) /\
  fst (add_failure test fault w)
  = completion_of (notify_raises "on_failure" (listners (result w))) /\
  (hooks_return (result w) ->
   fst (add_error test fault w) = Normal tt /\
   fst (add_failure test fault w) = Normal tt /\
   notified_listeners "on_error" (listners (result w))
   = filter (fun l => hasattr l "on_error") (listners (result w)) /\
   notified_listeners "on_failure" (listners (result w))
   = filter (fun l => hasattr l "on_failure") (listners (result w))).
Proof.
  cbv zeta. rewrite add_error_eq, add_failure_eq. cbn [fst snd].
  repeat split.
  - erewrite events_since_app
      by (cbn [trace error_added notified observed with_trace with_result];
          rewrite <- app_assoc; reflexivity).
    cbn [app hooks_of filter is_hook_event].
    apply hooks_of_hook_events.
  - erewrite events_since_app
      by (cbn [trace failure_added notified observed with_trace with_result];
          rewrite <- app_assoc; reflexivity).
    cbn [app hooks_of filter is_hook_event].
    apply hooks_of_hook_events.
  - rewrite notify_raises_return by assumption. reflexivity.
  - rewrite notify_raises_return by assumption. reflexivity.
  - apply notified_listeners_return. assumption.
  - apply notified_listeners_return. assumption.
Qed.

(* ===================================================================== *)
(** * Properties of [TestLoader.load_modules] *)
(* ===================================================================== *)

Module LoaderFacts.
Import Loader.

Lemma resolve_loop_found (env : Env) (parts : list string) (m : pymodule) :
  resolve_loop env parts (Some m) = inr (Some m).
Proof. destruct parts; simp resolve_loop; reflexivity. Qed.

Lemma resolve_loop_step (env : Env) (parts : list string) :
  parts <> [] ->
  resolve_loop env parts None
  = match import_ env (join "." parts) with
    | None => inr (Some (mk_pymodule (join "." parts)))
    | Some e =>
        if is_ImportError e then resolve_loop env (pop parts) None
        else inl e
    end.
Proof.
  destruct parts as [|p ps]; [congruence|]. intros _.
  simp resolve_loop.
  destruct (import_ env (join "." (p :: ps))) as [e|] eqn:E;
    simp resolve_loop.
  - destruct (is_ImportError e) eqn:Ei; simp resolve_loop; reflexivity.
  - apply resolve_loop_found.
Qed.

Lemma prefix_name_all (parts : list string) :
  prefix_name parts (List.length parts) = join "." parts.
Proof. unfold prefix_name. rewrite firstn_all. reflexivity. Qed.

Lemma prefix_name_snoc (l : list string) (x : string) (j : nat) :
  j <= List.length l ->
  prefix_name (l ++ [x]) j = prefix_name l j.
Proof.
  intro H. unfold prefix_name. rewrite firstn_app.
  replace (j - List.length l) with 0 by lia.
  cbn. rewrite app_nil_r. reflexivity.
Qed.



End LoaderFacts.

(* ===================================================================== *)
(* ===================================================================== *)
(** * More on [TestCase.run] *)
(* ===================================================================== *)

Lemma phases_of_app (self : TestCase) (a b : list event) :
  phases_of self (a ++ b) = phases_of self a ++ phases_of self b.
Proof.
  induction a as [|e a IH]; [reflexivity|].
  cbn. destruct (phase_of self e); cbn; rewrite IH; reflexivity.
Qed.

Lemma phases_of_none (self : TestCase) (t : list event) :
  Forall (fun e => phase_of self e = None) t -> phases_of self t = [].
Proof.
  induction 1 as [|e t He _ IH]; [reflexivity|].
  cbn. rewrite He. exact IH.
Qed.

Lemma phases_of_action_events (self tc : TestCase) (acts : list action)
    (w : World) :
  phases_of self (action_events tc acts w) = [].
Proof.
  apply phases_of_none.
  eapply Forall_impl; [|apply action_events_quiet].
  intros [m|l cb r a|t q] H; [reflexivity | reflexivity | discriminate].
Qed.

Lemma phases_of_hook_events (self : TestCase) (name : string)
    (args : list hook_arg) (r : TestResult) :
  phases_of self (hook_events name args r) = [].
Proof.
  apply phases_of_none. unfold hook_events.
  apply Forall_forall. intros e He.
  apply in_map_iff in He. destruct He as (l & <- & _). reflexivity.
Qed.

Ltac list_phases :=
  repeat first
    [ rewrite phases_of_app
    | rewrite phases_of_action_events
    | rewrite phases_of_hook_events
    | progress cbn [phases_of phase_of app] ];
  rewrite ?same_test_refl; cbn [phases_of phase_of app].

(** X1.  A run in which [start_test] returns enters the phases of its
    test in a fixed order: [setup], then the test method, then
    [teardown]; when [setup] raises (anything, the cancellation signal
    included) the test method is not entered and [teardown] still is.  A
    run in which [start_test] raises enters no phase. *)
Theorem run_enters_phases_in_order (self : TestCase) (w : World) :
  phases_of self (events_since w (snd (run self w)))
  = if entered (listners (result w))
    then if completes (setup (effective_test (listners (result w)) self))
         then [Setup; Body; Teardown]
         else [Setup; Teardown]
    else [].
Proof.
  run_cases.
  all: match goal with
       | |- phases_of _ (events_since _ ?w') = _ =>
           erewrite (events_since_app w w')
             by (expose_trace; reflexivity)
       end.
  all: unfold_effective; use_cases_goal.
  all: repeat (list_phases; rewrite ?same_test_refl); reflexivity.
Qed.

Lemma ends_with_cons {A} (x e : A) (l : list A) :
  (exists m, l = m ++ [x]) -> exists m, e :: l = m ++ [x].
Proof. intros [m ->]. exists (e :: m). reflexivity. Qed.

Lemma ends_with_app {A} (x : A) (a l : list A) :
  (exists m, l = m ++ [x]) -> exists m, a ++ l = m ++ [x].
Proof. intros [m ->]. exists (a ++ m). apply app_assoc. Qed.

Lemma ends_with_last {A} (x : A) : exists m, [x] = m ++ [x].
Proof. exists []. reflexivity. Qed.

Ltac ends_with :=
  repeat first
    [ apply ends_with_last | apply ends_with_cons | apply ends_with_app ].

Lemma quiet_free_stop_test (self : TestCase) :
  quiet_free (is_stop_test_of self).
Proof.
  intros [m|l cb r a|t q] H; [|reflexivity|discriminate].
  destruct m; try reflexivity; discriminate.
Qed.

Lemma hook_free_stop_test (self : TestCase) :
  hook_free (is_stop_test_of self).
Proof. intros l cb r a. reflexivity. Qed.

Lemma quiet_free_add_failure : quiet_free is_add_failure_call.
Proof.
  intros [m|l cb r a|t q] H; [|reflexivity|discriminate].
  destruct m; try reflexivity; discriminate.
Qed.

Lemma hook_free_add_failure : hook_free is_add_failure_call.
Proof. intros l cb r a. reflexivity. Qed.

Lemma quiet_free_add_error (self : TestCase) :
  quiet_free (is_add_error_of self).
Proof.
  intros [m|l cb r a|t q] H; [|reflexivity|discriminate].
  destruct m; try reflexivity; discriminate.
Qed.

Lemma hook_free_add_error (self : TestCase) :
  hook_free (is_add_error_of self).
Proof. intros l cb r a. reflexivity. Qed.

Lemma quiet_free_on_failure : quiet_free (is_hook "on_failure").
Proof.
  intros [m|l cb r a|t q] H; [reflexivity| |reflexivity].
  cbn in *. apply String.eqb_eq in H. subst cb. reflexivity.
Qed.

(** Counting the events of one run, for the predicates above as well. *)
Ltac count_run_events :=
  repeat first
    [ rewrite count_app
    | rewrite count_cons
    | rewrite count_nil
    | rewrite count_action_events
        by first [ apply quiet_free_phase | apply quiet_free_add_success
                 | apply quiet_free_start_test | apply quiet_free_on_success
                 | apply quiet_free_stop_test | apply quiet_free_add_failure
                 | apply quiet_free_add_error | apply quiet_free_on_failure ]
    | rewrite count_hook_events_free
        by first [ apply hook_free_phase | apply hook_free_add_success
                 | apply hook_free_start_test | apply hook_free_stop_test
                 | apply hook_free_add_failure | apply hook_free_add_error ]
    | rewrite count_hook_events_other by reflexivity ];
  cbn [is_phase_of is_add_success_of is_start_test_of is_stop_test_of
       is_add_failure_call is_add_error_of is_hook phase_eqb andb];
  rewrite ?same_test_refl; cbn [andb].

(** X2.  The events of a run begin with the call of [start_test] for
    the test and end with the call of [stop_test] for it, and each is
    called exactly once, whatever the phases do. *)
Theorem run_brackets_with_start_and_stop (self : TestCase) (w : World) :
  let events := events_since w (snd (run self w)) in
  hd_error events = Some (Call (CallStartTest self)) /\
  (exists between, events = between ++ [Call (CallStopTest self)]) /\
  count (is_start_test_of self) events = 1 /\
  count (is_stop_test_of self) events = 1.
Proof.
  cbv zeta. run_cases.
  all: match goal with
       | |- context [events_since _ ?w'] =>
           erewrite (events_since_app w w')
             by (expose_trace; reflexivity)
       end.
  all: split; [reflexivity|]; split; [ends_with|].
  all: split; count_run_events; reflexivity.
Qed.

(** X5.  A run never calls [add_failure] and never invokes an
    [on_failure] hook: every fault it records, Failure or Error, goes
    through [add_error], once per record, whatever the hooks do. *)
Theorem run_reports_through_add_error_only (self : TestCase) (w : World) :
  let events := events_since w (snd (run self w)) in
  count is_add_failure_call events = 0 /\
  count (is_hook "on_failure") events = 0 /\
  count (is_add_error_of self) events
  = List.length (faults_since w (snd (run self w))) /\
  count (is_add_error_of self) events
  = List.length (fault_records_in (listners (result w)) self) /\
  (hooks_return (result w) ->
   count (is_add_error_of self) events = List.length (fault_records self)).
Proof.
  cbv zeta.
  rewrite (faults_since_app _ _ _ (run_faults self w)).
  assert (H : count is_add_failure_call (events_since w (snd (run self w)))
              = 0 /\
              count (is_hook "on_failure") (events_since w (snd (run self w)))
              = 0 /\
              count (is_add_error_of self) (events_since w (snd (run self w)))
              = List.length (fault_records_in (listners (result w)) self)).
  { run_cases.
    all: match goal with
         | |- context [events_since _ ?w'] =>
             erewrite (events_since_app w w')
               by (expose_trace; reflexivity)
         end.
    all: unfold fault_records_in, entered.
    all: use_cases_goal.
    all: split; [|split]; count_run_events; reflexivity. }
  destruct H as (H1 & H2 & H3).
  repeat split; try assumption.
  intro Hr. rewrite H3, fault_records_in_return by exact Hr. reflexivity.
Qed.

Lemma n_tests_executed (self : TestCase) (p : phase) (code : user_code)
    (w : World) :
  n_tests (result (executed self p code w)) = n_tests (result w).
Proof.
  apply (executed_preserves self (fun w => n_tests (result w)));
    [reflexivity | intros w0 [| |dt]; reflexivity].
Qed.

Lemma n_assertions_executed (self : TestCase) (p : phase) (code : user_code)
    (w : World) :
  n_assertions (result (executed self p code w))
  = n_assertions (result w)
    + assertions_passed (effective (listners (result w)) code).
Proof.
  unfold executed, assertions_passed, effective. cbn [actions].
  generalize (performed_actions (listners (result w)) (actions code)).
  change (n_assertions (result w))
    with (n_assertions (result (observed (Phase self p) w))).
  generalize (observed (Phase self p) w). clear w.
  intros w acts. revert w.
  induction acts as [|a acts IH]; intro w; [cbn; lia|].
  cbn [fold_left filter]. rewrite IH.
  destruct a; cbn; lia.
Qed.

Lemma interrupted_executed_eq (self : TestCase) (p : phase)
    (code : user_code) (w : World) :
  interrupted (result (executed self p code w))
  = interrupted (result w)
    || requests_interrupt (effective (listners (result w)) code).
Proof.
  unfold executed, requests_interrupt, effective. cbn [actions].
  generalize (performed_actions (listners (result w)) (actions code)).
  change (interrupted (result w))
    with (interrupted (result (observed (Phase self p) w))).
  generalize (observed (Phase self p) w). clear w.
  intros w acts. revert w.
  induction acts as [|a acts IH]; intro w;
    [cbn; rewrite orb_false_r; reflexivity|].
  cbn [fold_left existsb]. rewrite IH.
  destruct a; cbn; rewrite ?orb_true_r; reflexivity.
Qed.

Ltac expose_counters :=
  repeat (cbn [n_tests n_assertions interrupted result observed notified
               with_trace with_result with_bound with_cleared with_now
               started stopped error_added success_added set_faults
               set_elapsed set__stop_at set__start_at set_n_tests];
          rewrite ?n_tests_executed, ?n_assertions_executed,
            ?interrupted_executed_eq;
          same_listners).

(** X3.  A run adds exactly one to [n_tests], whatever its outcome, and
    adds to [n_assertions] the assertions passed in the phases it
    entered: those of [setup] and [teardown], and those of the test
    method when [setup] completed; none when [start_test] raises, and in
    a phase those up to the first under which a hook raises. *)
Theorem run_counts_one_test (self : TestCase) (w : World) :
  let r' := result (snd (run self w)) in
  n_tests r' = n_tests (result w) + 1 /\
  n_assertions r'
  = n_assertions (result w)
    + (if entered (listners (result w))
       then run_assertions_passed (effective_test (listners (result w)) self)
       else 0) /\
  (hooks_return (result w) ->
   n_assertions r' = n_assertions (result w) + run_assertions_passed self).
Proof.
  cbv zeta.
  assert (H : n_tests (result (snd (run self w))) = n_tests (result w) + 1 /\
              n_assertions (result (snd (run self w)))
              = n_assertions (result w)
                + (if entered (listners (result w))
                   then run_assertions_passed
                          (effective_test (listners (result w)) self)
                   else 0)).
  { unfold run_assertions_passed. unfold_effective. run_cases.
    all: use_cases_goal.
    all: split; expose_counters; unfold assertions_passed, effective;
         cbn [actions]; lia. }
  destruct H as [H1 H2]. repeat split; try assumption.
  intro Hr. rewrite H2, entered_return, effective_test_return by exact Hr.
  reflexivity.
Qed.

(** The flag after a run. *)
Lemma run_interrupted_eq (self : TestCase) (w : World) :
  interrupted (result (snd (run self w)))
  = interrupted (result w)
    || (if entered (listners (result w))
        then run_requests_interrupt (effective_test (listners (result w)) self)
        else false).
Proof.
  unfold run_requests_interrupt. unfold_effective. run_cases.
  all: use_cases_goal.
  all: expose_counters; unfold requests_interrupt, effective;
       cbn [actions andb];
       rewrite ?orb_false_r, ?orb_assoc; reflexivity.
Qed.

Lemma run_interrupted_return (self : TestCase) (w : World) :
  hooks_return (result w) ->
  interrupted (result (snd (run self w)))
  = interrupted (result w) || run_requests_interrupt self.
Proof.
  intro Hr.
  rewrite run_interrupted_eq, entered_return, effective_test_return
    by exact Hr.
  reflexivity.
Qed.

Lemma not_bound_after_unbind (self : TestCase) (l : list nat) :
  existsb (Nat.eqb (oid self))
          (filter (fun o => negb (Nat.eqb (oid self) o)) l) = false.
Proof.
  induction l as [|o l IH]; [reflexivity|].
  cbn [filter]. destruct (Nat.eqb (oid self) o) eqn:E; cbn [negb existsb].
  - exact IH.
  - rewrite E. exact IH.
Qed.

(** X4.  After a run, on every exit path, the test's [__result] is
    unbound: [_pass_assertion] on the test then raises AttributeError and
    changes nothing. *)
Theorem run_unbinds_the_result (self : TestCase) (w : World) :
  let w' := snd (run self w) in
  is_bound self w' = false /\
  _pass_assertion self w' = (Raised no_bound_result, w').
Proof.
  cbv zeta.
  assert (H : is_bound self (snd (run self w)) = false
              /\ is_cleared self (snd (run self w)) = true).
  { run_cases.
    all: unfold is_bound, is_cleared, without;
         cbn [bound cleared with_bound with_cleared existsb].
    all: rewrite Nat.eqb_refl;
         split; [apply not_bound_after_unbind | reflexivity]. }
  destruct H as [Hb Hc]. split; [exact Hb|].
  unfold _pass_assertion, bind, get. rewrite Hb, Hc. reflexivity.
Qed.

(** X6.  With listeners whose hooks return, a run returns normally
    exactly when no phase it enters raises the cancellation signal; when
    one does, the exception that leaves the run is the TypeError of
    calling the boolean [result.interrupted], and nothing else leaves the
    run. *)
Theorem run_raises_iff_cancelled (self : TestCase) (w : World) :
  hooks_return (result w) ->
  (fst (run self w) = Normal tt <-> cancelled self = false) /\
  (forall e, fst (run self w) = Raised e <->
             cancelled self = true /\ e = bool_not_callable).
Proof.
  intro Hr.
  rewrite run_completion by exact Hr. destruct (cancelled self); split.
  - split; discriminate.
  - intro e. split.
    + intro H. injection H as <-. split; reflexivity.
    + intros [_ ->]. reflexivity.
  - split; reflexivity.
  - intro e. split; [discriminate|]. intros [H _]. discriminate H.
Qed.

Lemma run_raises_iff_cancelled_witness :
  (fst (run cancelled_test listening_world) = Normal tt
   <-> cancelled cancelled_test = false) /\
  (forall e, fst (run cancelled_test listening_world) = Raised e <->
             cancelled cancelled_test = true /\ e = bool_not_callable).
Proof.
  apply (run_raises_iff_cancelled cancelled_test listening_world).
  intros l callback_name [<-|[]]. reflexivity.
Defined.

Lemma count_interrupts_hook_events (name : string) (args : list hook_arg)
    (r : TestResult) :
  count is_interrupt_call (hook_events name args r) = 0.
Proof. apply count_hook_events_free. intros l cb r0 a. reflexivity. Qed.

Lemma count_interrupts_action_events (self : TestCase) (acts : list action)
    (w : World) :
  count is_interrupt_call (action_events self acts w)
  = List.length (filter is_Interrupt acts).
Proof.
  revert w. induction acts as [|a acts IH]; intro w; [reflexivity|].
  change (action_events self (a :: acts) w)
    with (events_of_action self a w
          ++ action_events self acts (performed self w a)).
  rewrite count_app, IH.
  destruct a; cbn [events_of_action filter is_Interrupt List.length].
  - rewrite count_cons, count_interrupts_hook_events. reflexivity.
  - reflexivity.
  - reflexivity.
Qed.

(** X7.  A run never calls [result.interrupt()] itself, not even when a
    phase raises the cancellation signal: the calls of [interrupt] during
    a run are exactly those requested from outside while its phases
    execute. *)
Theorem run_never_calls_interrupt_itself (self : TestCase) (w : World) :
  count is_interrupt_call (events_since w (snd (run self w)))
  = (if entered (listners (result w))
     then run_interrupts_requested (effective_test (listners (result w)) self)
     else 0) /\
  (hooks_return (result w) ->
   count is_interrupt_call (events_since w (snd (run self w)))
   = run_interrupts_requested self).
Proof.
  assert (H : count is_interrupt_call (events_since w (snd (run self w)))
              = if entered (listners (result w))
                then run_interrupts_requested
                       (effective_test (listners (result w)) self)
                else 0).
  { unfold run_interrupts_requested, interrupts_requested.
    unfold_effective. run_cases.
    all: match goal with
         | |- context [events_since _ ?w'] =>
             erewrite (events_since_app w w')
               by (expose_trace; reflexivity)
         end.
    all: same_listners; use_cases_goal.
    all: repeat first
           [ rewrite count_app | rewrite count_cons | rewrite count_nil
           | rewrite count_interrupts_action_events
           | rewrite count_interrupts_hook_events ].
    all: cbn [is_interrupt_call]; lia. }
  split; [exact H|].
  intro Hr. rewrite H, entered_return, effective_test_return by exact Hr.
  reflexivity.
Qed.

Lemma run_n_tests (self : TestCase) (w : World) :
  n_tests (result (snd (run self w))) = n_tests (result w) + 1.
Proof. run_cases; expose_counters; reflexivity. Qed.

Lemma Failure_count_fault_records (ls : list listener) (self : TestCase) :
  List.length (filter is_Failure (fault_records_in ls self))
  = if entered ls
       && completes (setup (effective_test ls self))
       && raises_AssertionFailure (test_method (effective_test ls self))
    then 1 else 0.
Proof.
  unfold fault_records_in, raises_AssertionFailure. unfold_effective.
  destruct (notify_raises "on_start_test" ls); [reflexivity|].
  rewrite filter_app, length_app.
  destruct (phase_raises ls (setup self)) as [es|];
    destruct (phase_raises ls (test_method self)) as [eb|];
    destruct (phase_raises ls (teardown self)) as [et|]; cbn [andb];
    try destruct (is_KeyboardInterrupt es);
    try destruct (is_AssertionFailure eb);
    try destruct (is_KeyboardInterrupt eb);
    try destruct (is_KeyboardInterrupt et); reflexivity.
Qed.

(** X20.  A run records a Failure only for an assertion failure raised by
    the test method: [n_failures] grows by one exactly when the phases
    were entered, [setup] completed and the test method raised
    AssertionFailure; every other record of the run, also for an
    assertion failure in [setup] or [teardown], is an Error. *)
Theorem run_failure_only_from_test_method (self : TestCase) (w : World) :
  let ls := listners (result w) in
  let failures :=
    if entered ls
       && completes (setup (effective_test ls self))
       && raises_AssertionFailure (test_method (effective_test ls self))
    then 1 else 0 in
  n_failures (result (snd (run self w))) = n_failures (result w) + failures /\
  n_errors (result (snd (run self w))) + failures
  = n_errors (result w) + List.length (fault_records_in ls self) /\
  (hooks_return (result w) ->
   failures
   = (if completes (setup self) && raises_AssertionFailure (test_method self)
      then 1 else 0) /\
   fault_records_in ls self = fault_records self).
Proof.
  cbv zeta.
  unfold n_failures, n_errors. rewrite run_faults, !filter_app, !length_app.
  rewrite Failure_count_fault_records.
  assert (H : List.length (filter is_Error
                (fault_records_in (listners (result w)) self))
              + List.length (filter is_Failure
                  (fault_records_in (listners (result w)) self))
              = List.length (fault_records_in (listners (result w)) self)).
  { induction (fault_records_in (listners (result w)) self) as [|f fs IH];
      [reflexivity|].
    cbn [filter]. destruct f; cbn [is_Error is_Failure List.length]; lia. }
  rewrite Failure_count_fault_records in H.
  split; [lia|]. split; [lia|].
  intro Hr.
  rewrite entered_return, effective_test_return, fault_records_in_return
    by exact Hr.
  split; reflexivity.
Qed.

(* ===================================================================== *)
(** * More on [TestSuite] *)
(* ===================================================================== *)

Lemma Test_run_Suite_cons (t : Test) (rest : list Test) (w : World) :
  Test_run (Suite (t :: rest)) w
  = match Test_run t w with
    | (Normal _, w1) =>
        if interrupted (result w1) then (Normal tt, w1)
        else Test_run (Suite rest) w1
    | (Returned, w1) => (Returned, w1)
    | (Raised e, w1) => (Raised e, w1)
    end.
Proof.
  change (Test_run (Suite (t :: rest)) w)
    with ((Test_run t ;;
           stop <- need_interrupt ;;
           if stop then ret tt else Test_run (Suite rest)) w).
  unfold bind at 1. destruct (Test_run t w) as [[[]| |e] w1]; try reflexivity.
  cbv beta iota delta [bind need_interrupt self_ ret].
  destruct (interrupted (result w1)); reflexivity.
Qed.

(** X8.  [len] of a test is the number of test cases below it, through
    suites of suites. *)
Theorem Test_len_counts_leaves (t : Test) :
  Test_len t = List.length (leaves t).
Proof.
  induction t as [tc|tests IH] using Test_induction; [reflexivity|].
  cbn [Test_len leaves].
  induction IH as [|t ts Ht _ IHts]; [reflexivity|].
  cbn [fold_right flat_map]. rewrite length_app, Ht, IHts. reflexivity.
Qed.

Lemma add_tests_app (_tests tests : list Test) :
  TestSuite_add_tests _tests tests = _tests ++ tests.
Proof.
  unfold TestSuite_add_tests. revert _tests.
  induction tests as [|t ts IH]; intro s; cbn [fold_left].
  - rewrite app_nil_r. reflexivity.
  - rewrite IH. unfold TestSuite_add_test. rewrite <- app_assoc. reflexivity.
Qed.

Lemma Test_len_Suite_app (a b : list Test) :
  Test_len (Suite (a ++ b)) = Test_len (Suite a) + Test_len (Suite b).
Proof.
  cbn [Test_len]. induction a as [|t a IH]; [reflexivity|].
  cbn [app fold_right]. rewrite IH. lia.
Qed.

(** X9.  A suite iterates over its tests in insertion order: the tests
    given to the constructor, then those added with [add_tests] or
    [add_test], in order; and the size of the suite is the sum of the
    sizes of what was added. *)
Theorem TestSuite_keeps_insertion_order (tests more : list Test) (test : Test) :
  TestSuite_iter (TestSuite_init tests) = tests /\
  TestSuite_iter (TestSuite_add_tests (TestSuite_init tests) more)
  = tests ++ more /\
  TestSuite_iter (TestSuite_add_test (TestSuite_init tests) test)
  = tests ++ [test] /\
  Test_len (Suite (TestSuite_add_tests (TestSuite_init tests) more))
  = Test_len (Suite tests) + Test_len (Suite more).
Proof.
  unfold TestSuite_iter, TestSuite_init.
  rewrite !add_tests_app. cbn [app].
  repeat split. apply Test_len_Suite_app.
Qed.

Lemma leaves_Suite_cons (t : Test) (ts : list Test) :
  leaves (Suite (t :: ts)) = leaves t ++ leaves (Suite ts).
Proof. reflexivity. Qed.

Lemma hooks_return_same_listners (r r' : TestResult) :
  listners r' = listners r -> hooks_return r -> hooks_return r'.
Proof. unfold hooks_return. intros -> H. exact H. Qed.

(** Running a test neither registers nor removes a listener. *)
Lemma Test_run_listners (t : Test) (w : World) :
  listners (result (snd (Test_run t w))) = listners (result w).
Proof.
  revert w. induction t as [tc|tests IH] using Test_induction; intro w.
  - apply run_listners.
  - revert w. induction IH as [|t ts Ht _ IHts]; intro w; [reflexivity|].
    rewrite Test_run_Suite_cons. specialize (Ht w).
    destruct (Test_run t w) as [[[]| |e] w1]; cbn [snd] in *;
      try exact Ht.
    destruct (interrupted (result w1)); [exact Ht|].
    rewrite IHts. exact Ht.
Qed.

(** X10.  With listeners whose hooks return, when the flag is not set and
    no test case below a test raises the cancellation signal or has an
    interrupt requested, running the test returns normally, starts every
    test case below it ([n_tests] grows by its size), appends the fault
    records of the test cases in order, and leaves the flag unset. *)
Theorem undisturbed_suite_runs_every_test (t : Test) (w : World) :
  hooks_return (result w) ->
  interrupted (result w) = false ->
  Forall undisturbed (leaves t) ->
  fst (Test_run t w) = Normal tt /\
  n_tests (result (snd (Test_run t w))) = n_tests (result w) + Test_len t /\
  faults (result (snd (Test_run t w)))
  = faults (result w) ++ flat_map fault_records (leaves t) /\
  interrupted (result (snd (Test_run t w))) = false.
Proof.
  revert w.
  induction t as [tc|tests IH] using Test_induction; intros w Hr Hw Hu.
  - cbn [leaves] in Hu. apply Forall_inv in Hu. destruct Hu as [Hc Hi].
    cbn [Test_run Test_len TestCase_len leaves flat_map].
    rewrite run_returns by assumption.
    rewrite run_n_tests, run_faults, fault_records_in_return by exact Hr.
    rewrite run_interrupted_return by exact Hr.
    rewrite Hw, Hi, app_nil_r.
    repeat split.
  - revert w Hr Hw Hu. induction IH as [|t ts Ht _ IHts]; intros w Hr Hw Hu.
    + cbn. rewrite app_nil_r, Nat.add_0_r. repeat split. exact Hw.
    + rewrite leaves_Suite_cons in Hu. apply Forall_app in Hu.
      destruct Hu as [Hut Huts].
      destruct (Ht w Hr Hw Hut) as (Hc & Hn & Hf & Hi).
      pose proof (Test_run_listners t w) as Hl.
      rewrite Test_run_Suite_cons.
      destruct (Test_run t w) as [c w1]. cbn [fst snd] in Hc, Hn, Hf, Hi, Hl.
      subst c. rewrite Hi.
      assert (Hr1 : hooks_return (result w1))
        by (apply (hooks_return_same_listners (result w)); assumption).
      destruct (IHts w1 Hr1 Hi Huts) as (Hc' & Hn' & Hf' & Hi').
      split; [exact Hc'|]. split; [|split; [|exact Hi']].
      * rewrite Hn', Hn. cbn [Test_len fold_right]. lia.
      * rewrite Hf', Hf, leaves_Suite_cons, flat_map_app, <- app_assoc.
        reflexivity.
Qed.

Lemma undisturbed_suite_runs_every_test_witness :
  fst (Test_run nested_suite listening_world) = Normal tt /\
  n_tests (result (snd (Test_run nested_suite listening_world)))
  = n_tests (result listening_world) + Test_len nested_suite /\
  faults (result (snd (Test_run nested_suite listening_world)))
  = faults (result listening_world)
    ++ flat_map fault_records (leaves nested_suite) /\
  interrupted (result (snd (Test_run nested_suite listening_world))) = false.
Proof.
  apply (undisturbed_suite_runs_every_test nested_suite listening_world).
  - intros l callback_name [<-|[]]. reflexivity.
  - reflexivity.
  - repeat constructor.
Defined.

(** X11.  With listeners whose hooks return, when the first child of a
    suite is a test case during which an interrupt is requested (and
    which does not raise the cancellation signal), the suite does what
    that test case's run does and no more: the run returns normally with
    the flag set and the other children are not run. *)
Theorem interrupt_request_stops_suite
    (tc : TestCase) (rest : list Test) (w : World) :
  hooks_return (result w) ->
  cancelled tc = false ->
  run_requests_interrupt tc = true ->
  TestSuite_run (Case tc :: rest) w = run tc w /\
  fst (run tc w) = Normal tt /\
  interrupted (result (snd (run tc w))) = true.
Proof.
  intros Hh Hc Hi.
  pose proof (run_returns tc w Hh Hc) as Hr.
  pose proof (run_interrupted_return tc w Hh) as Hf.
  rewrite Hi, orb_true_r in Hf.
  split; [|split; assumption].
  unfold TestSuite_run. rewrite Test_run_Suite_cons.
  cbn [Test_run]. destruct (run tc w) as [c w1]. cbn [fst snd] in Hr, Hf.
  subst c. rewrite Hf. reflexivity.
Qed.

Lemma interrupt_request_stops_suite_witness :
  TestSuite_run [Case interrupting_test; Case second_test] listening_world
  = run interrupting_test listening_world /\
  fst (run interrupting_test listening_world) = Normal tt /\
  interrupted (result (snd (run interrupting_test listening_world))) = true.
Proof.
  apply (interrupt_request_stops_suite
           interrupting_test [Case second_test] listening_world).
  - intros l callback_name [<-|[]]. reflexivity.
  - reflexivity.
  - reflexivity.
Defined.

(** X12.  With listeners whose hooks return, when the first child of a
    suite is a test case that raises the cancellation signal, the
    TypeError of the run leaves the suite, and an enclosing suite, without
    any other child being run. *)
Theorem cancelled_test_aborts_suite
    (tc : TestCase) (rest : list Test) (w : World) :
  hooks_return (result w) ->
  cancelled tc = true ->
  TestSuite_run (Case tc :: rest) w = run tc w /\
  fst (run tc w) = Raised bool_not_callable /\
  TestSuite_run [Suite (Case tc :: rest)] w = run tc w.
Proof.
  intros Hh Hc.
  pose proof (run_completion tc w Hh) as Hr. rewrite Hc in Hr.
  assert (H1 : TestSuite_run (Case tc :: rest) w = run tc w).
  { unfold TestSuite_run. rewrite Test_run_Suite_cons. cbn [Test_run].
    destruct (run tc w) as [c w1]. cbn [fst] in Hr. subst c. reflexivity. }
  split; [exact H1|]. split; [exact Hr|].
  unfold TestSuite_run in *. rewrite Test_run_Suite_cons, H1.
  destruct (run tc w) as [c w1]. cbn [fst] in Hr. subst c. reflexivity.
Qed.

Lemma cancelled_test_aborts_suite_witness :
  TestSuite_run [Case cancelled_test; Case second_test] listening_world
  = run cancelled_test listening_world /\
  fst (run cancelled_test listening_world) = Raised bool_not_callable /\
  TestSuite_run [Suite [Case cancelled_test; Case second_test]]
                listening_world
  = run cancelled_test listening_world.
Proof.
  apply (cancelled_test_aborts_suite
           cancelled_test [Case second_test] listening_world).
  - intros l callback_name [<-|[]]. reflexivity.
  - reflexivity.
Defined.

(* ===================================================================== *)
(** * The filtering of tracebacks *)
(* ===================================================================== *)

Lemma skip_relevant_split (tb : list tb_level) :
  exists framework,
    tb = framework ++ skip_relevant_tb_levels tb /\
    Forall in_framework framework /\
    starts_in_caller_code (skip_relevant_tb_levels tb).
Proof.
  induction tb as [|level next IH].
  - exists []. repeat split. constructor.
  - cbn [skip_relevant_tb_levels].
    destruct (_is_relevant_tb_level level) eqn:E.
    + destruct IH as (fw & Heq & Hfw & Hs).
      exists (level :: fw). split; [cbn; f_equal; exact Heq|].
      split; [constructor; assumption|exact Hs].
    + exists []. split; [reflexivity|]. split; [constructor|exact E].
Qed.

Lemma count_relevant_split (tb : list tb_level) :
  Forall in_caller_code (firstn (_count_relevant_tb_levels tb) tb) /\
  starts_in_framework (skipn (_count_relevant_tb_levels tb) tb).
Proof.
  induction tb as [|level next [IH1 IH2]].
  - split; constructor.
  - cbn [_count_relevant_tb_levels].
    destruct (_is_relevant_tb_level level) eqn:E; cbn [negb].
    + split; [constructor|exact E].
    + cbn [Nat.add firstn skipn]. split; [constructor; assumption|exact IH2].
Qed.

Lemma _prepare_traceback_eq (tb : list tb_level) (compute_length : bool) :
  _prepare_traceback tb compute_length
  = map Traceback_of
      (if compute_length
       then firstn (_count_relevant_tb_levels (skip_relevant_tb_levels tb))
                   (skip_relevant_tb_levels tb)
       else skip_relevant_tb_levels tb).
Proof.
  unfold _prepare_traceback, extract_tb.
  rewrite map_map. destruct compute_length; reflexivity.
Qed.

(** X13.  The traceback of a Failure ([compute_length] true) is made of
    caller code only: the raw traceback is a run of framework levels, the
    levels kept, none of them in the framework, and a rest that is empty
    or starts in the framework; and some level is kept as soon as the raw
    traceback has a level of caller code. *)
Theorem failure_traceback_is_caller_code (tb : list tb_level) :
  exists framework kept rest,
    tb = framework ++ kept ++ rest /\
    Forall in_framework framework /\
    Forall in_caller_code kept /\
    starts_in_framework rest /\
    _prepare_traceback tb true = map Traceback_of kept /\
    (Exists in_caller_code tb -> kept <> []).
Proof.
  destruct (skip_relevant_split tb) as (fw & Heq & Hfw & Hs).
  destruct (count_relevant_split (skip_relevant_tb_levels tb)) as [Hk Hr].
  exists fw,
    (firstn (_count_relevant_tb_levels (skip_relevant_tb_levels tb))
            (skip_relevant_tb_levels tb)),
    (skipn (_count_relevant_tb_levels (skip_relevant_tb_levels tb))
           (skip_relevant_tb_levels tb)).
  rewrite firstn_skipn.
  split; [exact Heq|]. split; [exact Hfw|]. split; [exact Hk|].
  split; [exact Hr|]. split; [apply _prepare_traceback_eq|].
  intros Hex Hnil.
  destruct (skip_relevant_tb_levels tb) as [|level next] eqn:Es.
  - rewrite app_nil_r in Heq. subst fw.
    apply Exists_exists in Hex. destruct Hex as (l & Hin & Hl).
    rewrite Forall_forall in Hfw. specialize (Hfw l Hin).
    unfold in_framework, in_caller_code in *. congruence.
  - cbn in Hs. unfold in_caller_code in Hs.
    cbn [_count_relevant_tb_levels] in Hnil. rewrite Hs in Hnil.
    cbn in Hnil. discriminate Hnil.
Qed.

(** X14.  The traceback of an Error ([compute_length] false) is the raw
    traceback without its leading framework levels, later framework
    levels included; and the traceback a Failure would get is a prefix of
    it. *)
Theorem error_traceback_drops_leading_framework (tb : list tb_level) :
  exists framework kept,
    tb = framework ++ kept /\
    Forall in_framework framework /\
    starts_in_caller_code kept /\
    _prepare_traceback tb false = map Traceback_of kept /\
    _prepare_traceback tb true
    = firstn (List.length (_prepare_traceback tb true))
             (_prepare_traceback tb false).
Proof.
  destruct (skip_relevant_split tb) as (fw & Heq & Hfw & Hs).
  exists fw, (skip_relevant_tb_levels tb).
  split; [exact Heq|]. split; [exact Hfw|]. split; [exact Hs|].
  split; [apply _prepare_traceback_eq|].
  rewrite !_prepare_traceback_eq, length_map, <- firstn_map, length_firstn.
  set (n := _count_relevant_tb_levels (skip_relevant_tb_levels tb)).
  set (l := map Traceback_of (skip_relevant_tb_levels tb)).
  replace (List.length (skip_relevant_tb_levels tb)) with (List.length l)
    by apply length_map.
  destruct (Nat.le_ge_cases n (List.length l)) as [Hle|Hge].
  - rewrite Nat.min_l by exact Hle. reflexivity.
  - rewrite Nat.min_r by exact Hge.
    rewrite firstn_all, firstn_all2 by exact Hge. reflexivity.
Qed.

(* ===================================================================== *)
(** * [TestCase.description] *)
(* ===================================================================== *)

Lemma hd_split_without_sep (sep : ascii) (s : string) :
  string_forall (fun c => negb (Ascii.eqb c sep))
                (hd EmptyString (Loader.split sep s)) = true.
Proof.
  induction s as [|c rest IH]; [reflexivity|].
  cbn [Loader.split]. destruct (Ascii.eqb c sep) eqn:E; [reflexivity|].
  destruct (Loader.split sep rest) as [|part parts]; cbn [hd] in *.
  - cbn. rewrite E. reflexivity.
  - cbn. rewrite E, IH. reflexivity.
Qed.

Lemma split_without_sep (sep : ascii) (s : string) :
  string_forall (fun c => negb (Ascii.eqb c sep)) s = true ->
  Loader.split sep s = [s].
Proof.
  induction s as [|c rest IH]; [reflexivity|].
  cbn [string_forall Loader.split]. intro H.
  apply andb_true_iff in H. destruct H as [Hc Hr].
  apply negb_true_iff in Hc. rewrite Hc, (IH Hr). reflexivity.
Qed.

Lemma lstrip_forall (p : ascii -> bool) (s : string) :
  string_forall p s = true -> string_forall p (lstrip s) = true.
Proof.
  induction s as [|c rest IH]; [reflexivity|].
  intro H. cbn [lstrip]. destruct (is_whitespace c); [|exact H].
  cbn in H. apply andb_true_iff in H. apply IH, H.
Qed.

Lemma rstrip_forall (p : ascii -> bool) (s : string) :
  string_forall p s = true -> string_forall p (rstrip s) = true.
Proof.
  induction s as [|c rest IH]; [reflexivity|].
  cbn [string_forall rstrip]. intro H.
  apply andb_true_iff in H. destruct H as [Hc Hr]. specialize (IH Hr).
  destruct (rstrip rest) as [|c' kept].
  - destruct (is_whitespace c); [reflexivity|].
    cbn. rewrite Hc. reflexivity.
  - cbn [string_forall]. rewrite Hc. exact IH.
Qed.

Lemma rstrip_rstrip (s : string) : rstrip (rstrip s) = rstrip s.
Proof.
  induction s as [|c rest IH]; [reflexivity|].
  cbn [rstrip]. destruct (rstrip rest) as [|c' kept] eqn:E.
  - destruct (is_whitespace c) eqn:Ec; [reflexivity|].
    cbn [rstrip]. rewrite Ec. reflexivity.
  - change (rstrip (String c (String c' kept)))
      with (match rstrip (String c' kept) with
            | EmptyString => if is_whitespace c then EmptyString
                             else String c EmptyString
            | kept' => String c kept'
            end).
    rewrite IH. reflexivity.
Qed.

Lemma lstrip_rstrip_lstrip (s : string) :
  lstrip (rstrip (lstrip s)) = rstrip (lstrip s).
Proof.
  induction s as [|c rest IH]; [reflexivity|].
  cbn [lstrip]. destruct (is_whitespace c) eqn:Ec; [exact IH|].
  cbn [rstrip]. destruct (rstrip rest) as [|c' kept];
    rewrite ?Ec; cbn [lstrip]; rewrite Ec; reflexivity.
Qed.

(** X15.  [description()] is None exactly when the test method has no
    docstring or an empty one; otherwise it is a single line with no
    whitespace at either end; and a docstring that begins with a newline
    has the empty description. *)
Theorem description_is_one_stripped_line (self : TestCase) :
  (description self = None <->
   description_doc self = None \/ description_doc self = Some EmptyString) /\
  (forall d, description self = Some d ->
     Loader.split newline d = [d] /\ lstrip d = d /\ rstrip d = d) /\
  (forall rest, description_doc self = Some (String newline rest) ->
     description self = Some EmptyString).
Proof.
  unfold description. split; [|split].
  - destruct (description_doc self) as [[|c doc]|]; split;
      try (intros _; auto; fail); try discriminate.
    + intros [H|H]; discriminate H.
  - intros d H.
    assert (Hd : exists doc,
               d = strip (hd EmptyString (Loader.split newline doc))).
    { destruct (description_doc self) as [[|c doc]|]; try discriminate.
      exists (String c doc). injection H as H. symmetry. exact H. }
    destruct Hd as [doc ->]. unfold strip. split; [|split].
    + apply split_without_sep, rstrip_forall, lstrip_forall,
        hd_split_without_sep.
    + apply lstrip_rstrip_lstrip.
    + apply rstrip_rstrip.
  - intros rest ->. reflexivity.
Qed.
(* ===================================================================== *)
(** * Notifications of the other methods *)
(* ===================================================================== *)

Ltac hooks_of_method :=
  erewrite events_since_app
    by (cbn [trace passed_assertion started success_added notified observed
             with_trace with_result];
        rewrite <- app_assoc; reflexivity);
  cbn [app hooks_of filter is_hook_event];
  apply hooks_of_hook_events.

(** X16.  [pass_assertion], [start_test] and [add_success] invoke their
    hook ([on_pass_assertion], [on_start_test], [on_success]) on the
    listeners that have it, in registration order, with the test, after
    updating the aggregator: the listener sees the incremented
    [n_assertions], respectively [n_tests] and the new [_start_at];
    [add_success] stores nothing.  The first hook that raises ends the
    notification and the method with its exception, the update made;
    when no hook raises every listener that has the hook is invoked and
    the methods return. *)
Theorem methods_notify_after_updating (test : TestCase) (w : World) :
  let wa := snd (pass_assertion test w) in
  let ws := snd (start_test test w) in
  let wk := snd (add_success test w) in
  (n_assertions (result wa) = n_assertions (result w) + 1 /\
   hooks_of (events_since w wa)
   = invocations "on_pass_assertion" (result wa) [TestArg test]) /\
  (n_tests (result ws) = n_tests (result w) + 1 /\
   _start_at (result ws) = Some (now w) /\
   hooks_of (events_since w ws)
   = invocations "on_start_test" (result ws) [TestArg test]) /\
  (result wk = result w /\
   hooks_of (events_since w wk)
   = invocations "on_success" (result w) [TestArg test]) /\
  (fst (pass_assertion test w)
   = completion_of (notify_raises "on_pass_assertion" (listners (result w)))
   /\ fst (start_test test w)
      = completion_of (notify_raises "on_start_test" (listners (result w)))
   /\ fst (add_success test w)
      = completion_of (notify_raises "on_success" (listners (result w)))) /\
  (hooks_return (result w) ->
   forall callback_name r,
     listners r = listners (result w) ->
     invocations callback_name r [TestArg test]
     = map (fun l => Hook l callback_name r [TestArg test])
           (filter (fun l => hasattr l callback_name) (listners r))).
Proof.
  cbv zeta. rewrite pass_assertion_eq, start_test_eq, add_success_eq.
  cbn [fst snd]. unfold invocations.
  repeat split; try hooks_of_method.
  intros Hr callback_name r Hl. rewrite Hl.
  rewrite notified_listeners_return by exact Hr. reflexivity.
Qed.

(* ===================================================================== *)
(** * More on discovery *)
(* ===================================================================== *)

Module DiscoveryFacts.
Import Loader Discovery.

Lemma split_not_nil (sep : ascii) (s : string) : split sep s <> [].
Proof.
  destruct s as [|c rest]; cbn [split]; [discriminate|].
  destruct (Ascii.eqb c sep); [discriminate|].
  destruct (split sep rest); discriminate.
Qed.

Lemma join_split (sep : ascii) (s : string) :
  join (String sep EmptyString) (split sep s) = s.
Proof.
  unfold join. induction s as [|c rest IH]; [reflexivity|].
  cbn [split]. pose proof (split_not_nil sep rest) as Hne.
  destruct (split sep rest) as [|part parts]; [congruence|]. clear Hne.
  destruct (Ascii.eqb c sep) eqn:E.
  - apply Ascii.eqb_eq in E. subst c.
    change (concat (String sep EmptyString) (EmptyString :: part :: parts))
      with (String sep (concat (String sep EmptyString) (part :: parts))).
    rewrite IH. reflexivity.
  - destruct parts as [|part' parts'].
    + cbn [concat] in *. rewrite IH. reflexivity.
    + change (concat (String sep EmptyString)
                     (String c part :: part' :: parts'))
        with (String c (concat (String sep EmptyString)
                               (part :: part' :: parts'))).
      rewrite IH. reflexivity.
Qed.

Lemma replace_char_removes (old new : ascii) (s : string) :
  Ascii.eqb new old = false ->
  string_forall (fun c => negb (Ascii.eqb c old)) (replace_char old new s)
  = true.
Proof.
  intro Hne. induction s as [|c rest IH]; [reflexivity|].
  cbn [replace_char string_forall]. rewrite IH, andb_true_r.
  destruct (Ascii.eqb c old) eqn:E; [rewrite Hne|rewrite E]; reflexivity.
Qed.

(** X17.  The parts of a target joined by dots give back its dotted
    name, which holds no path separator; so the first name the loader
    tries is the dotted name, and when that imports, the module of that
    name is the one loaded. *)
Theorem first_candidate_is_the_dotted_name (env : Env) (target : string) :
  join "." (parts_of target) = dotted_name target /\
  string_forall (fun c => negb (Ascii.eqb c os_path_sep)) (dotted_name target)
  = true /\
  (import_ env (dotted_name target) = None ->
   resolve_loop env (parts_of target) None
   = inr (Some (mk_pymodule (dotted_name target)))).
Proof.
  assert (Hj : join "." (parts_of target) = dotted_name target)
    by apply (join_split "."%char).
  split; [exact Hj|]. split; [apply replace_char_removes; reflexivity|].
  intro Hi.
  rewrite LoaderFacts.resolve_loop_step by apply split_not_nil.
  rewrite Hj, Hi. reflexivity.
Qed.

Lemma resolve_loop_only_ImportError (env : Env) (parts : list string) :
  (forall k e, tried env parts k ->
               import_ env (prefix_name parts k) = Some e ->
               is_ImportError e = true) ->
  match resolve_loop env parts None with
  | inl _ => False
  | inr (Some m) =>
      import_ env (module_name m) = None /\
      exists k, 1 <= k <= List.length parts /\
                m = mk_pymodule (prefix_name parts k)
  | inr None => True
  end.
Proof.
  induction parts as [|x l IH] using rev_ind; intro Honly.
  - simp resolve_loop. exact I.
  - rewrite LoaderFacts.resolve_loop_step by (destruct l; discriminate).
    assert (Hlen : List.length (l ++ [x]) = S (List.length l))
      by (rewrite length_app; cbn; lia).
    destruct (import_ env (join "." (l ++ [x]))) as [e|] eqn:E.
    + assert (He : is_ImportError e = true).
      { apply (Honly (List.length (l ++ [x])) e).
        - split; [lia|]. intros j Hj. lia.
        - rewrite LoaderFacts.prefix_name_all. exact E. }
      assert (Hl : forall k e', tried env l k ->
                   import_ env (prefix_name l k) = Some e' ->
                   is_ImportError e' = true).
      { intros k e' [Hk Hlonger] He'. apply (Honly k e').
        - split; [lia|]. intros j Hj.
          destruct (Nat.eq_dec j (S (List.length l))) as [->|Hne].
          + rewrite <- Hlen, LoaderFacts.prefix_name_all, E. discriminate.
          + rewrite LoaderFacts.prefix_name_snoc by lia. apply Hlonger. lia.
        - rewrite LoaderFacts.prefix_name_snoc by lia. exact He'. }
      specialize (IH Hl).
      rewrite He. unfold pop. rewrite removelast_last.
      destruct (resolve_loop env l None) as [e'|[m|]]; [exact IH| |exact I].
      destruct IH as (Hi & k & Hk & Hm). split; [exact Hi|].
      exists k. rewrite Hlen. split; [lia|].
      rewrite LoaderFacts.prefix_name_snoc by lia. exact Hm.
    + cbn [module_name]. split; [exact E|].
      exists (S (List.length l)). rewrite Hlen. split; [lia|].
      rewrite <- Hlen, LoaderFacts.prefix_name_all. reflexivity.
Qed.

Lemma load_targets_only_ImportError (env : Env) (targets : list string)
    (all : list string) (modules : list pymodule) :
  only_ImportError env all ->
  incl targets all ->
  Forall (loaded_for env all) modules ->
  exists loaded,
    load_targets env targets modules = inr (modules ++ loaded) /\
    List.length loaded <= List.length targets /\
    Forall (loaded_for env all) loaded.
Proof.
  intros Honly. revert modules.
  induction targets as [|target rest IH]; intros modules Hincl Hm.
  - exists []. rewrite app_nil_r. repeat split; constructor.
  - cbn [load_targets].
    assert (Hr : match resolve_loop env (parts_of target) None with
                 | inl _ => False
                 | inr (Some m) =>
                     import_ env (module_name m) = None /\
                     exists k, 1 <= k <= List.length (parts_of target) /\
                               m = mk_pymodule (prefix_name (parts_of target) k)
                 | inr None => True
                 end).
    { apply resolve_loop_only_ImportError. intros k e Hk He.
      apply (Honly target k e); [|exact Hk|exact He].
      apply Hincl. left. reflexivity. }
    assert (Hrest : incl rest all)
      by (intros t Ht; apply Hincl; right; exact Ht).
    destruct (resolve_loop env (parts_of target) None) as [e|[m|]];
      [contradiction| |].
    + destruct Hr as (Hi & k & Hk & Hmk).
      assert (Hl : loaded_for env all m).
      { split; [exact Hi|]. exists target, k.
        split; [apply Hincl; left; reflexivity|]. split; assumption. }
      destruct (IH (modules ++ [m]) Hrest) as (loaded & Heq & Hlen & Hall).
      { apply Forall_app. split; [exact Hm|]. constructor; [exact Hl|constructor]. }
      exists (m :: loaded). rewrite Heq, <- app_assoc.
      split; [reflexivity|]. split; [cbn; lia|].
      constructor; assumption.
    + destruct (IH modules Hrest Hm) as (loaded & Heq & Hlen & Hall).
      exists loaded. split; [exact Heq|]. split; [cbn; lia|exact Hall].
Qed.

(** X18.  When the imports the loader tries (for each target the names
    of the non-empty prefixes of its dotted name, longest first, as long
    as they fail) fail with ImportError only, [load_modules] does not
    raise: it returns at most one module per target, each imported
    successfully under such a prefix; targets that cannot be imported are
    skipped. *)
Theorem load_modules_skips_what_cannot_be_imported
    (env : Env) (self : TestLoader) :
  only_ImportError env (find_targets env self) ->
  exists modules,
    load_modules env self = inr modules /\
    List.length modules <= List.length (find_targets env self) /\
    Forall (loaded_for env (find_targets env self)) modules.
Proof.
  intro Honly. unfold load_modules.
  destruct (load_targets_only_ImportError env (find_targets env self)
              (find_targets env self) [] Honly (incl_refl _) (Forall_nil _))
    as (loaded & Heq & Hlen & Hall).
  exists loaded. rewrite Heq. repeat split; assumption.
Qed.

Lemma load_modules_skips_what_cannot_be_imported_witness :
  exists modules,
    load_modules two_files_env (TestLoader_init None None None) = inr modules /\
    List.length modules
    <= List.length (find_targets two_files_env (TestLoader_init None None None)) /\
    Forall (loaded_for two_files_env
              (find_targets two_files_env (TestLoader_init None None None)))
           modules.
Proof.
  apply (load_modules_skips_what_cannot_be_imported two_files_env
           (TestLoader_init None None None)).
  intros target k e Hin [Hk _].
  destruct Hin as [<-|[<-|[]]]; vm_compute in Hk.
  - assert (k = 1) as -> by lia. vm_compute. discriminate.
  - assert (k = 1 \/ k = 2) as [->| ->] by lia;
      vm_compute; intro H; injection H as <-; reflexivity.
Defined.

(** X19.  When importing the dotted name of the first target raises
    something other than ImportError, [load_modules] ends with that
    exception: the other targets are not looked at. *)
Theorem other_import_failure_aborts_discovery
    (env : Env) (self : TestLoader) (target : string) (rest : list string)
    (e : exn) :
  find_targets env self = target :: rest ->
  import_ env (dotted_name target) = Some e ->
  is_ImportError e = false ->
  load_modules env self = inl e.
Proof.
  intros Ht Hi He. unfold load_modules. rewrite Ht. cbn [load_targets].
  rewrite LoaderFacts.resolve_loop_step by apply split_not_nil.
  replace (join "." (parts_of target)) with (dotted_name target)
    by (symmetry; apply (join_split "."%char)).
  rewrite Hi, He. reflexivity.
Qed.

Lemma other_import_failure_aborts_discovery_witness :
  load_modules broken_file_env (TestLoader_init None None None)
  = inl SyntaxError_raised.
Proof.
  apply (other_import_failure_aborts_discovery broken_file_env
           (TestLoader_init None None None) "test_broken.py" ["test_a.py"]);
    reflexivity.
Defined.

End DiscoveryFacts.

(* ===================================================================== *)
(** * The flags of regular expressions *)
(* ===================================================================== *)

Lemma land_rendered_bits (flags c : Z) :
  Z.land rendered_bits c = c ->
  Z.land (Z.land flags rendered_bits) c = Z.land flags c.
Proof. intro H. rewrite <- Z.land_assoc, H. reflexivity. Qed.

(** X21.  [_re_flags] and [_re_flags_repr] agree: the first gives one
    letter per name the second joins, the second is None exactly when the
    first is empty (in particular for a value that is not a compiled
    pattern), and only the bits of the six flags IGNORECASE, LOCALE,
    MULTILINE, DOTALL, UNICODE and VERBOSE make a difference. *)
Theorem re_flag_renderings_agree (pattern : pattern_value) :
  String.length (_re_flags pattern) = List.length (re_flag_names pattern) /\
  (_re_flags_repr pattern = None <-> _re_flags pattern = EmptyString) /\
  (forall source flags,
     pattern = CompiledPattern source flags ->
     _re_flags pattern
     = _re_flags (CompiledPattern source (Z.land flags rendered_bits)) /\
     _re_flags_repr pattern
     = _re_flags_repr (CompiledPattern source (Z.land flags rendered_bits))).
Proof.
  split; [|split].
  - destruct pattern as [source flags|]; [|reflexivity].
    unfold _re_flags, re_flag_names.
    destruct (truthy (Z.land flags re.IGNORECASE)),
      (truthy (Z.land flags re.LOCALE)), (truthy (Z.land flags re.MULTILINE)),
      (truthy (Z.land flags re.DOTALL)), (truthy (Z.land flags re.UNICODE)),
      (truthy (Z.land flags re.VERBOSE)); reflexivity.
  - destruct pattern as [source flags|]; [|split; reflexivity].
    unfold _re_flags_repr, _re_flags, re_flag_names.
    destruct (truthy (Z.land flags re.IGNORECASE)),
      (truthy (Z.land flags re.LOCALE)), (truthy (Z.land flags re.MULTILINE)),
      (truthy (Z.land flags re.DOTALL)), (truthy (Z.land flags re.UNICODE)),
      (truthy (Z.land flags re.VERBOSE)); cbn; split;
      try discriminate; reflexivity.
  - intros source flags ->.
    unfold _re_flags_repr, _re_flags, re_flag_names.
    rewrite !land_rendered_bits by reflexivity. split; reflexivity.
Qed.
